(** * CounterContractService (src/lib/contract.ts): session lifecycle,
      read/write gateway and network switch, as a shallow embedding.

    The class keeps three nullable fields and talks to four outside
    parties: the injected wallet ([window.ethereum]), the ethers provider,
    the signer and the contract proxy.  Every [await] on one of them is an
    interaction whose reply is fixed by a [World]; a method is a function
    from the service's fields to an outcome, the fields afterwards and the
    list of interactions it performed, in order.  [console.log] and
    [console.error] have no effect on any of these and are left out.  A
    promise that never settles (a wallet prompt left open) has no reply in
    a [World]: the runs described here are those in which every awaited
    call settles. *)

From Stdlib Require Import String Ascii List ZArith NArith Bool Lia.
Import ListNotations.
Open Scope string_scope.

(** ** Strings: [String.prototype.includes] and [Number.prototype.toString(16)] *)

Fixpoint startsWith (s search : string) {struct search} : bool :=
  match search with
  | EmptyString => true
  | String c search' =>
      match s with
      | EmptyString => false
      | String d s' => Ascii.eqb d c && startsWith s' search'
      end
  end.

(** [includes s search] is [s.includes(search)].  Strings are the UTF-8
    bytes of the source text; on well-formed text a search over bytes finds
    what a search over UTF-16 code units finds. *)
Fixpoint includes (s search : string) : bool :=
  startsWith s search ||
  match s with
  | EmptyString => false
  | String _ s' => includes s' search
  end.

Definition hexDigit (d : N) : ascii :=
  match d with
  | 0 => "0" | 1 => "1" | 2 => "2" | 3 => "3" | 4 => "4" | 5 => "5"
  | 6 => "6" | 7 => "7" | 8 => "8" | 9 => "9" | 10 => "a" | 11 => "b"
  | 12 => "c" | 13 => "d" | 14 => "e" | _ => "f"
  end%N%char.

Fixpoint toString16_from (fuel : nat) (n : N) (acc : string) : string :=
  match fuel with
  | O => acc
  | S fuel' =>
      let acc' := String (hexDigit (n mod 16)) acc in
      if (n <? 16)%N then acc' else toString16_from fuel' (n / 16) acc'
  end.

(** [toString16 n] is [n.toString(16)] for a non-negative integer [n]:
    lower-case digits, most significant first, no prefix. *)
Definition toString16 (n : N) : string :=
  toString16_from (S (N.to_nat (N.size n))) n EmptyString.

Definition hexValue (c : ascii) : option N :=
  let k := N_of_ascii c in
  if (48 <=? k)%N && (k <=? 57)%N then Some (k - 48)%N
  else if (97 <=? k)%N && (k <=? 102)%N then Some (k - 87)%N
  else None.

(** Reading a string of lower-case hexadecimal digits back, most
    significant digit first. *)
Fixpoint parseHex_from (acc : N) (s : string) : option N :=
  match s with
  | EmptyString => Some acc
  | String c s' =>
      match hexValue c with
      | Some d => parseHex_from (16 * acc + d) s'
      | None => None
      end
  end.

Definition parseHex (s : string) : option N := parseHex_from 0 s.

(** ** Values that a rejected promise or a [throw] can carry *)

(** [JsError] is a value for which [instanceof Error] holds, with its
    [message] and, when it has a numeric one, its [code] property (EIP-1193
    provider errors carry one).  [JsObject] is any other value that is not
    [null] or [undefined]; [JsNullish] is [null] or [undefined]. *)
Inductive JsValue : Type :=
| JsError (message : string) (code : option Z)
| JsObject (code : option Z)
| JsNullish.

(** [new Error(message)]. *)
Definition Error (message : string) : JsValue := JsError message None.

Definition instanceofError (v : JsValue) : bool :=
  match v with
  | JsError _ _ => true
  | _ => false
  end.

Definition message_of (v : JsValue) : string :=
  match v with
  | JsError m _ => m
  | _ => EmptyString
  end.

Definition code_of (v : JsValue) : option Z :=
  match v with
  | JsError _ c => c
  | JsObject c => c
  | JsNullish => None
  end.

(** [v.code === k]. *)
Definition code_is (v : JsValue) (k : Z) : bool :=
  match code_of v with
  | Some c => Z.eqb c k
  | None => false
  end.

(** What the engine throws on [window.ethereum] where no [window] exists,
    and on [v.code] where [v] is [null] or [undefined] (V8's wording; no
    statement below depends on the text). *)
Definition ReferenceError_window : JsValue :=
  JsError "window is not defined" None.
Definition TypeError_code : JsValue :=
  JsError "Cannot read properties of undefined (reading 'code')" None.

(** ** Static configuration (./constants) *)

Record NetworkDescriptor : Type := {
  chainId : N;
  name : string;
  rpcUrl : string;
  blockExplorer : string
}.

Record Constants : Type := {
  contractAddress : string;
  CURRENT_NETWORK : NetworkDescriptor
}.

Definition SUPPORTED_NETWORKS_sepolia : NetworkDescriptor := {|
  chainId := 11155111;
  name := "Sepolia Test Network";
  rpcUrl := "https://sepolia.infura.io/v3/";
  blockExplorer := "https://sepolia.etherscan.io/"
|}.

(** The values the repository ships. *)
Definition constants : Constants := {|
  contractAddress := "0x4195c66979168212232B2d88cb15fd48c5072c83";
  CURRENT_NETWORK := SUPPORTED_NETWORKS_sepolia
|}.

(** ** Handles and the outside world *)

Inductive Ethereum : Type := InjectedProvider.

Record Window : Type := { ethereum : option Ethereum }.

Record BrowserProvider : Type := { eip1193 : Ethereum }.

Record JsonRpcSigner : Type := { account : nat }.

(** [new ethers.Contract(target, CounterABI, runner)]; the ABI is the
    static JSON and is not part of the handle here.  [runner] is the value
    of [this.signer] at construction, a nullable field. *)
Record Contract : Type := {
  target : string;
  runner : option JsonRpcSigner
}.

Record ContractTransactionResponse : Type := { hash : nat }.

Record Network : Type := {
  network_chainId : Z;
  network_name : string
}.

(** The three members of [CounterContractMethods] that send a transaction. *)
Inductive Mutator : Type :=
| incrementCounter_method
| decrementCounter_method
| resetCounter_method.

Record NativeCurrency : Type := {
  currency_name : string;
  symbol : string;
  decimals : N
}.

Inductive RequestParam : Type :=
| SwitchChainParam (chainId : string)
| AddChainParam (chainId chainName : string)
    (rpcUrls blockExplorerUrls : list string)
    (nativeCurrency : NativeCurrency).

Record RequestArguments : Type := {
  method : string;
  params : list RequestParam
}.

(** How an awaited promise settles. *)
Inductive Reply (A : Type) : Type :=
| Resolve (a : A)
| Reject (e : JsValue).
Arguments Resolve {A} a.
Arguments Reject {A} e.

(** Everything outside the class: the host environment, [ethers.isAddress],
    and the reply to each call on the provider, signer, contract proxy,
    pending transaction and wallet. *)
Record World : Type := {
  window : option Window;
  isAddress : string -> bool;
  provider_getSigner : Reply JsonRpcSigner;
  provider_getNetwork : Reply Network;
  provider_getCode : string -> Reply string;
  signer_getAddress : JsonRpcSigner -> Reply string;
  contract_getCounter : Contract -> Reply Z;
  contract_send : Contract -> Mutator -> Reply ContractTransactionResponse;
  contract_owner : Contract -> Reply string;
  tx_wait : ContractTransactionResponse -> Reply unit;
  ethereum_request : RequestArguments -> Reply unit
}.

(** One entry per call that leaves the class. *)
Inductive Interaction : Type :=
| ProviderGetSigner
| ProviderGetNetwork
| ProviderGetCode (address : string)
| SignerGetAddress (s : JsonRpcSigner)
| ContractGetCounter (c : Contract)
| ContractSend (c : Contract) (m : Mutator)
| ContractOwner (c : Contract)
| TxWait (tx : ContractTransactionResponse)
| EthereumRequest (args : RequestArguments).

(** ** The service's fields *)

Record CounterContractService : Type := {
  contract : option Contract;
  provider : option BrowserProvider;
  signer : option JsonRpcSigner
}.

(** [new CounterContractService()]: the three fields start as [null]. *)
Definition counterService : CounterContractService := {|
  contract := None;
  provider := None;
  signer := None
|}.

(** ** Async methods: outcome, fields afterwards, interactions performed *)

Inductive Outcome (A : Type) : Type :=
| Return (a : A)
| Throw (e : JsValue).
Arguments Return {A} a.
Arguments Throw {A} e.

Record Run (A : Type) : Type := {
  outcome : Outcome A;
  after : CounterContractService;
  trace : list Interaction
}.
Arguments outcome {A} r.
Arguments after {A} r.
Arguments trace {A} r.

Definition Async (A : Type) : Type := CounterContractService -> Run A.

Definition ret {A} (a : A) : Async A :=
  fun this => {| outcome := Return a; after := this; trace := [] |}.

Definition throw {A} (e : JsValue) : Async A :=
  fun this => {| outcome := Throw e; after := this; trace := [] |}.

Definition bind {A B} (m : Async A) (k : A -> Async B) : Async B :=
  fun this =>
    match m this with
    | {| outcome := Return a; after := this'; trace := t |} =>
        match k a this' with
        | {| outcome := o; after := this''; trace := t' |} =>
            {| outcome := o; after := this''; trace := t ++ t' |}
        end
    | {| outcome := Throw e; after := this'; trace := t |} =>
        {| outcome := Throw e; after := this'; trace := t |}
    end.

(** [try { m } catch (e) { handler e }]. *)
Definition try_catch {A} (m : Async A) (handler : JsValue -> Async A)
  : Async A :=
  fun this =>
    match m this with
    | {| outcome := Return a; after := this'; trace := t |} =>
        {| outcome := Return a; after := this'; trace := t |}
    | {| outcome := Throw e; after := this'; trace := t |} =>
        match handler e this' with
        | {| outcome := o; after := this''; trace := t' |} =>
            {| outcome := o; after := this''; trace := t ++ t' |}
        end
    end.

(** [await] of one call that leaves the class. *)
Definition await {A} (i : Interaction) (reply : Reply A) : Async A :=
  fun this =>
    match reply with
    | Resolve a => {| outcome := Return a; after := this; trace := [i] |}
    | Reject e => {| outcome := Throw e; after := this; trace := [i] |}
    end.

Definition this_contract : Async (option Contract) :=
  fun this => {| outcome := Return (contract this); after := this; trace := [] |}.
Definition this_provider : Async (option BrowserProvider) :=
  fun this => {| outcome := Return (provider this); after := this; trace := [] |}.
Definition this_signer : Async (option JsonRpcSigner) :=
  fun this => {| outcome := Return (signer this); after := this; trace := [] |}.

Definition set_contract (c : option Contract) : Async unit :=
  fun this =>
    {| outcome := Return tt;
       after := {| contract := c; provider := provider this;
                   signer := signer this |};
       trace := [] |}.
Definition set_provider (p : option BrowserProvider) : Async unit :=
  fun this =>
    {| outcome := Return tt;
       after := {| contract := contract this; provider := p;
                   signer := signer this |};
       trace := [] |}.
Definition set_signer (s : option JsonRpcSigner) : Async unit :=
  fun this =>
    {| outcome := Return tt;
       after := {| contract := contract this; provider := provider this;
                   signer := s |};
       trace := [] |}.

(** [if (b) { m }] *)
Definition when (b : bool) (m : Async unit) : Async unit :=
  if b then m else ret tt.

Declare Scope async_scope.
Delimit Scope async_scope with async.
Notation "x <- m ;; k" := (bind m (fun x => k))
  (at level 61, m at next level, right associativity) : async_scope.
Notation "m ;; k" := (bind m (fun _ => k))
  (at level 61, right associativity) : async_scope.
Open Scope async_scope.

(** ** Results of the query methods *)

Record NetworkInfo : Type := {
  info_chainId : Z;
  info_name : string
}.

Record ContractDebugInfo : Type := {
  debug_contractAddress : string;
  networkInfo : NetworkInfo;
  contractCode : string;
  isContractDeployed : bool
}.

(** ** class CounterContractService *)

Section Service.

Variable K : Constants.
Variable w : World.

Definition connect : Async unit :=
  match window w with
  | None => throw (Error "이 함수는 브라우저에서만 실행할 수 있습니다.")
  | Some win =>
      match ethereum win with
      | None => throw (Error "MetaMask가 설치되지 않았습니다.")
      | Some eth =>
          set_provider (Some {| eip1193 := eth |}) ;;
          s <- await ProviderGetSigner (provider_getSigner w) ;;
          set_signer (Some s) ;;
          network <- await ProviderGetNetwork (provider_getNetwork w) ;;
          when (negb (isAddress w (contractAddress K)))
            (throw (Error ("유효하지 않은 컨트랙트 주소: "
                           ++ contractAddress K))) ;;
          code <- await (ProviderGetCode (contractAddress K))
                    (provider_getCode w (contractAddress K)) ;;
          when (String.eqb code "0x")
            (throw (Error ("컨트랙트가 해당 주소에 배포되지 않았습니다: "
                           ++ contractAddress K))) ;;
          this_signer_now <- this_signer ;;
          set_contract (Some {| target := contractAddress K;
                                runner := this_signer_now |})
      end
  end.

Definition getCounter : Async Z :=
  c <- this_contract ;;
  match c with
  | None => throw (Error "컨트랙트에 연결되지 않았습니다.")
  | Some c =>
      try_catch
        (result <- await (ContractGetCounter c) (contract_getCounter w c) ;;
         ret result)
        (fun error =>
           when (instanceofError error)
             (when (includes (message_of error) "BAD_DATA")
                (throw (Error "컨트랙트가 해당 주소에 배포되지 않았거나 잘못된 네트워크에 연결되었습니다."))) ;;
           throw (Error ("카운터 값을 가져오는데 실패했습니다: "
                         ++ (if instanceofError error then message_of error
                             else "알 수 없는 오류"))))
  end.

Definition incrementCounter : Async unit :=
  c <- this_contract ;;
  match c with
  | None => throw (Error "컨트랙트에 연결되지 않았습니다.")
  | Some c =>
      tx <- await (ContractSend c incrementCounter_method)
              (contract_send w c incrementCounter_method) ;;
      await (TxWait tx) (tx_wait w tx)
  end.

Definition decrementCounter : Async unit :=
  c <- this_contract ;;
  match c with
  | None => throw (Error "컨트랙트에 연결되지 않았습니다.")
  | Some c =>
      tx <- await (ContractSend c decrementCounter_method)
              (contract_send w c decrementCounter_method) ;;
      await (TxWait tx) (tx_wait w tx)
  end.

Definition resetCounter : Async unit :=
  c <- this_contract ;;
  match c with
  | None => throw (Error "컨트랙트에 연결되지 않았습니다.")
  | Some c =>
      tx <- await (ContractSend c resetCounter_method)
              (contract_send w c resetCounter_method) ;;
      await (TxWait tx) (tx_wait w tx)
  end.

(** The mutating operation that calls member [m] of the contract. *)
Definition mutate (m : Mutator) : Async unit :=
  match m with
  | incrementCounter_method => incrementCounter
  | decrementCounter_method => decrementCounter
  | resetCounter_method => resetCounter
  end.

Definition getOwner : Async string :=
  c <- this_contract ;;
  match c with
  | None => throw (Error "컨트랙트에 연결되지 않았습니다.")
  | Some c => await (ContractOwner c) (contract_owner w c)
  end.

Definition getWalletAddress : Async string :=
  s <- this_signer ;;
  match s with
  | None => throw (Error "지갑에 연결되지 않았습니다.")
  | Some s => await (SignerGetAddress s) (signer_getAddress w s)
  end.

Definition isConnected (this : CounterContractService) : bool :=
  match contract this with
  | Some _ => true
  | None => false
  end.

Definition getNetworkInfo : Async NetworkInfo :=
  p <- this_provider ;;
  match p with
  | None => throw (Error "프로바이더에 연결되지 않았습니다.")
  | Some _ =>
      network <- await ProviderGetNetwork (provider_getNetwork w) ;;
      ret {| info_chainId := network_chainId network;
             info_name := network_name network |}
  end.

Definition switchRequest (sepoliaChainId : string) : RequestArguments := {|
  method := "wallet_switchEthereumChain";
  params := [SwitchChainParam sepoliaChainId]
|}.

Definition addRequest (sepoliaChainId : string) : RequestArguments := {|
  method := "wallet_addEthereumChain";
  params :=
    [AddChainParam sepoliaChainId
       (name (CURRENT_NETWORK K))
       [rpcUrl (CURRENT_NETWORK K)]
       [blockExplorer (CURRENT_NETWORK K)]
       {| currency_name := "ETH"; symbol := "ETH"; decimals := 18 |}]
|}.

Definition switchToCorrectNetwork : Async unit :=
  match window w with
  | None => throw ReferenceError_window
  | Some win =>
      match ethereum win with
      | None => throw (Error "MetaMask가 설치되지 않았습니다.")
      | Some _ =>
          let sepoliaChainId :=
            "0x" ++ toString16 (chainId (CURRENT_NETWORK K)) in
          try_catch
            (await (EthereumRequest (switchRequest sepoliaChainId))
               (ethereum_request w (switchRequest sepoliaChainId)))
            (fun switchError =>
               match switchError with
               | JsNullish => throw TypeError_code
               | _ =>
                   if code_is switchError 4902 then
                     try_catch
                       (await (EthereumRequest (addRequest sepoliaChainId))
                          (ethereum_request w (addRequest sepoliaChainId)))
                       (fun addError =>
                          throw (Error (name (CURRENT_NETWORK K)
                                        ++ "을 추가할 수 없습니다.")))
                   else throw (Error "네트워크 전환에 실패했습니다.")
               end)
      end
  end.

Definition getContractDebugInfo : Async ContractDebugInfo :=
  p <- this_provider ;;
  match p with
  | None => throw (Error "프로바이더에 연결되지 않았습니다.")
  | Some _ =>
      network <- await ProviderGetNetwork (provider_getNetwork w) ;;
      code <- await (ProviderGetCode (contractAddress K))
                (provider_getCode w (contractAddress K)) ;;
      ret {| debug_contractAddress := contractAddress K;
             networkInfo := {| info_chainId := network_chainId network;
                               info_name := network_name network |};
             contractCode := code;
             isContractDeployed := negb (String.eqb code "0x") |}
  end.

End Service.

(** ** The spec's error kinds, as the values the code throws

    The class throws plain [Error] objects; a kind of the spec is the
    [Error] with the message of the corresponding [throw]. *)

Definition EnvironmentError_noBrowser : JsValue :=
  Error "이 함수는 브라우저에서만 실행할 수 있습니다.".
Definition EnvironmentError_noWallet : JsValue :=
  Error "MetaMask가 설치되지 않았습니다.".
Definition InvalidAddressError (address : string) : JsValue :=
  Error ("유효하지 않은 컨트랙트 주소: " ++ address).
Definition ContractNotDeployedError (address : string) : JsValue :=
  Error ("컨트랙트가 해당 주소에 배포되지 않았습니다: " ++ address).
Definition NotConnectedError : JsValue :=
  Error "컨트랙트에 연결되지 않았습니다.".
Definition NotConnectedError_signer : JsValue :=
  Error "지갑에 연결되지 않았습니다.".
Definition NotConnectedError_provider : JsValue :=
  Error "프로바이더에 연결되지 않았습니다.".
Definition StaleDeploymentError : JsValue :=
  Error "컨트랙트가 해당 주소에 배포되지 않았거나 잘못된 네트워크에 연결되었습니다.".
Definition ReadFailedError (underlying : string) : JsValue :=
  Error ("카운터 값을 가져오는데 실패했습니다: " ++ underlying).
Definition NetworkSwitchError_add (networkName : string) : JsValue :=
  Error (networkName ++ "을 추가할 수 없습니다.").
Definition NetworkSwitchError_switch : JsValue :=
  Error "네트워크 전환에 실패했습니다.".

(** The session triple of a service. *)
Definition fully_present (this : CounterContractService) : Prop :=
  contract this <> None /\ provider this <> None /\ signer this <> None.
Definition fully_absent (this : CounterContractService) : Prop :=
  contract this = None /\ provider this = None /\ signer this = None.

(** A run that threw [e] without changing a field and without a call
    leaving the class. *)
Definition failed_at_once {A} (e : JsValue) (this : CounterContractService)
  : Run A :=
  {| outcome := Throw e; after := this; trace := [] |}.

(** The fields after [connect] assigned the provider, and after it
    assigned the signer as well. *)
Definition with_provider (this : CounterContractService) (eth : Ethereum)
  : CounterContractService :=
  {| contract := contract this; provider := Some {| eip1193 := eth |};
     signer := signer this |}.

Definition with_provider_signer (this : CounterContractService)
    (eth : Ethereum) (s : JsonRpcSigner) : CounterContractService :=
  {| contract := contract this; provider := Some {| eip1193 := eth |};
     signer := Some s |}.

(** The two requests of [switchToCorrectNetwork], written out. *)
Definition wallet_switchEthereumChain (K : Constants) : RequestArguments := {|
  method := "wallet_switchEthereumChain";
  params :=
    [SwitchChainParam ("0x" ++ toString16 (chainId (CURRENT_NETWORK K)))]
|}.

Definition wallet_addEthereumChain (K : Constants) : RequestArguments := {|
  method := "wallet_addEthereumChain";
  params :=
    [AddChainParam ("0x" ++ toString16 (chainId (CURRENT_NETWORK K)))
       (name (CURRENT_NETWORK K))
       [rpcUrl (CURRENT_NETWORK K)]
       [blockExplorer (CURRENT_NETWORK K)]
       {| currency_name := "ETH"; symbol := "ETH"; decimals := 18 |}]
|}.

(** ** Sessions: method calls in sequence

    A caller holds one service and calls its methods one after another;
    between two calls the outside may change, so each call comes with the
    world it runs in. *)

Inductive Call : Type :=
| call_connect
| call_getCounter
| call_incrementCounter
| call_decrementCounter
| call_resetCounter
| call_getOwner
| call_getWalletAddress
| call_getNetworkInfo
| call_switchToCorrectNetwork
| call_getContractDebugInfo.

(** The fields, and the interactions performed, once the call settled. *)
Definition fields_after (K : Constants) (w : World) (c : Call)
    (this : CounterContractService) : CounterContractService :=
  match c with
  | call_connect => after (connect K w this)
  | call_getCounter => after (getCounter w this)
  | call_incrementCounter => after (incrementCounter w this)
  | call_decrementCounter => after (decrementCounter w this)
  | call_resetCounter => after (resetCounter w this)
  | call_getOwner => after (getOwner w this)
  | call_getWalletAddress => after (getWalletAddress w this)
  | call_getNetworkInfo => after (getNetworkInfo w this)
  | call_switchToCorrectNetwork => after (switchToCorrectNetwork K w this)
  | call_getContractDebugInfo => after (getContractDebugInfo K w this)
  end.

Definition interactions_of (K : Constants) (w : World) (c : Call)
    (this : CounterContractService) : list Interaction :=
  match c with
  | call_connect => trace (connect K w this)
  | call_getCounter => trace (getCounter w this)
  | call_incrementCounter => trace (incrementCounter w this)
  | call_decrementCounter => trace (decrementCounter w this)
  | call_resetCounter => trace (resetCounter w this)
  | call_getOwner => trace (getOwner w this)
  | call_getWalletAddress => trace (getWalletAddress w this)
  | call_getNetworkInfo => trace (getNetworkInfo w this)
  | call_switchToCorrectNetwork => trace (switchToCorrectNetwork K w this)
  | call_getContractDebugInfo => trace (getContractDebugInfo K w this)
  end.

Fixpoint session (K : Constants) (calls : list (Call * World))
    (this : CounterContractService) : CounterContractService :=
  match calls with
  | [] => this
  | (c, w) :: calls' => session K calls' (fields_after K w c this)
  end.

(** What holds of the fields of a service however it was used: a contract
    handle comes with a provider and a signer, a signer with a provider,
    and the handle targets the configured address through some signer. *)
Definition coherent (K : Constants) (this : CounterContractService) : Prop :=
  (contract this <> None -> signer this <> None) /\
  (signer this <> None -> provider this <> None) /\
  (forall c, contract this = Some c ->
     target c = contractAddress K /\ runner c <> None).

(** ** Sample worlds *)

Module Sample.

(** The shape test of an address: [0x] and forty hexadecimal digits.
    ([ethers.isAddress] also verifies the checksum of mixed-case input;
    the sample worlds take the shipped address as valid.) *)
Definition isHexDigit (c : ascii) : bool :=
  let k := N_of_ascii c in
  ((48 <=? k) && (k <=? 57) || (97 <=? k) && (k <=? 102)
   || (65 <=? k) && (k <=? 70))%N.

Fixpoint allHex (s : string) : bool :=
  match s with
  | EmptyString => true
  | String c s' => isHexDigit c && allHex s'
  end.

Definition hex40 (s : string) : bool :=
  match s with
  | String "0" (String "x" digits) =>
      Nat.eqb (String.length digits) 40 && allHex digits
  | _ => false
  end.

Definition wallet : option Window := Some {| ethereum := Some InjectedProvider |}.

Definition user : JsonRpcSigner := {| account := 0 |}.

Definition sepolia : Network :=
  {| network_chainId := 11155111; network_name := "sepolia" |}.

Definition mainnet : Network :=
  {| network_chainId := 1; network_name := "mainnet" |}.

Definition pending : ContractTransactionResponse := {| hash := 1 |}.

(** A world in which every call resolves, but for the parts given. *)
Definition world (net : Network) (code : string)
    (send : Reply ContractTransactionResponse) (wait : Reply unit)
    (read : Reply Z) (request : RequestArguments -> Reply unit) : World := {|
  window := wallet;
  isAddress := hex40;
  provider_getSigner := Resolve user;
  provider_getNetwork := Resolve net;
  provider_getCode := fun _ => Resolve code;
  signer_getAddress := fun _ =>
    Resolve "0x70997970C51812dc3A010C7d01b50e0d17dc79C8";
  contract_getCounter := fun _ => read;
  contract_send := fun _ _ => send;
  contract_owner := fun _ =>
    Resolve "0xf39Fd6e51aad88F6F4ce6aB8827279cffFb92266";
  tx_wait := fun _ => wait;
  ethereum_request := request
|}.

(** The contract is deployed on Sepolia and nothing fails. *)
Definition deployed : World :=
  world sepolia "0x6080604052" (Resolve pending) (Resolve tt) (Resolve 7%Z)
    (fun _ => Resolve tt).

(** The wallet is on mainnet, where the address holds no code. *)
Definition wrong_chain : World :=
  world mainnet "0x" (Resolve pending) (Resolve tt) (Resolve 7%Z)
    (fun _ => Resolve tt).

(** The user rejects the signature request (EIP-1193 code 4001). *)
Definition user_rejected : JsValue :=
  JsError "user rejected action" (Some 4001%Z).

Definition rejecting : World :=
  world sepolia "0x6080604052" (Reject user_rejected) (Resolve tt)
    (Resolve 7%Z) (fun _ => Reject user_rejected).

(** The transaction is mined and reverts. *)
Definition reverted : JsValue :=
  JsError "transaction execution reverted" None.

Definition reverting : World :=
  world sepolia "0x6080604052" (Resolve pending) (Reject reverted)
    (Resolve 7%Z) (fun _ => Resolve tt).

(** The read call returns no data. *)
Definition bad_data : JsValue :=
  JsError "could not decode result data (value=0x, code=BAD_DATA)" None.

Definition stale : World :=
  world sepolia "0x6080604052" (Resolve pending) (Resolve tt)
    (Reject bad_data) (fun _ => Resolve tt).

(** The wallet does not know the chain: the switch request is rejected
    with code 4902 and the request that adds the chain is accepted. *)
Definition unknown_chain : JsValue :=
  JsError "Unrecognized chain ID" (Some 4902%Z).

Definition unregistered : World :=
  world mainnet "0x" (Resolve pending) (Resolve tt) (Resolve 7%Z)
    (fun args =>
       if String.eqb (method args) "wallet_switchEthereumChain"
       then Reject unknown_chain else Resolve tt).

(** As [unregistered], and the user also declines to add the chain. *)
Definition unregistered_declined : World :=
  world mainnet "0x" (Resolve pending) (Resolve tt) (Resolve 7%Z)
    (fun args =>
       if String.eqb (method args) "wallet_switchEthereumChain"
       then Reject unknown_chain else Reject user_rejected).

(** A configuration whose address is too short. *)
Definition misconfigured : Constants := {|
  contractAddress := "0x4195c669";
  CURRENT_NETWORK := SUPPORTED_NETWORKS_sepolia
|}.

(** The service after a successful [connect] in [deployed]. *)
Definition connected : CounterContractService :=
  after (connect constants deployed counterService).

(** A second account of the wallet. *)
Definition other_user : JsonRpcSigner := {| account := 1 |}.

(** The wallet is locked: no account is handed out. *)
Definition locked : World := {|
  window := wallet;
  isAddress := hex40;
  provider_getSigner := Reject user_rejected;
  provider_getNetwork := Resolve sepolia;
  provider_getCode := fun _ => Resolve "0x6080604052";
  signer_getAddress := fun _ =>
    Resolve "0x70997970C51812dc3A010C7d01b50e0d17dc79C8";
  contract_getCounter := fun _ => Resolve 7%Z;
  contract_send := fun _ _ => Resolve pending;
  contract_owner := fun _ =>
    Resolve "0xf39Fd6e51aad88F6F4ce6aB8827279cffFb92266";
  tx_wait := fun _ => Resolve tt;
  ethereum_request := fun _ => Resolve tt
|}.

(** The user moved to the second account and to mainnet, where the
    address holds no code. *)
Definition switched_account : World := {|
  window := wallet;
  isAddress := hex40;
  provider_getSigner := Resolve other_user;
  provider_getNetwork := Resolve mainnet;
  provider_getCode := fun _ => Resolve "0x";
  signer_getAddress := fun s =>
    if Nat.eqb (account s) 0
    then Resolve "0x70997970C51812dc3A010C7d01b50e0d17dc79C8"
    else Resolve "0x3C44CdDdB6a900fa2b585dd299e03d12FA4293BC";
  contract_getCounter := fun _ => Reject bad_data;
  contract_send := fun _ _ => Resolve pending;
  contract_owner := fun _ => Reject bad_data;
  tx_wait := fun _ => Resolve tt;
  ethereum_request := fun _ => Resolve tt
|}.

(** A browser without a wallet extension, and a host without [window]
    (server-side rendering). *)
Definition no_extension : World := {|
  window := Some {| ethereum := None |};
  isAddress := hex40;
  provider_getSigner := Resolve user;
  provider_getNetwork := Resolve sepolia;
  provider_getCode := fun _ => Resolve "0x6080604052";
  signer_getAddress := fun _ =>
    Resolve "0x70997970C51812dc3A010C7d01b50e0d17dc79C8";
  contract_getCounter := fun _ => Resolve 7%Z;
  contract_send := fun _ _ => Resolve pending;
  contract_owner := fun _ =>
    Resolve "0xf39Fd6e51aad88F6F4ce6aB8827279cffFb92266";
  tx_wait := fun _ => Resolve tt;
  ethereum_request := fun _ => Resolve tt
|}.

Definition server : World := {|
  window := None;
  isAddress := hex40;
  provider_getSigner := Resolve user;
  provider_getNetwork := Resolve sepolia;
  provider_getCode := fun _ => Resolve "0x6080604052";
  signer_getAddress := fun _ =>
    Resolve "0x70997970C51812dc3A010C7d01b50e0d17dc79C8";
  contract_getCounter := fun _ => Resolve 7%Z;
  contract_send := fun _ _ => Resolve pending;
  contract_owner := fun _ =>
    Resolve "0xf39Fd6e51aad88F6F4ce6aB8827279cffFb92266";
  tx_wait := fun _ => Resolve tt;
  ethereum_request := fun _ => Resolve tt
|}.

(** The owner query fails in transit. *)
Definition timeout : JsValue := JsError "request timeout" None.

Definition flaky : World := {|
  window := wallet;
  isAddress := hex40;
  provider_getSigner := Resolve user;
  provider_getNetwork := Reject timeout;
  provider_getCode := fun _ => Reject timeout;
  signer_getAddress := fun _ => Reject timeout;
  contract_getCounter := fun _ => Reject timeout;
  contract_send := fun _ _ => Reject timeout;
  contract_owner := fun _ => Reject timeout;
  tx_wait := fun _ => Reject timeout;
  ethereum_request := fun _ => Reject timeout
|}.

End Sample.

Example connect_deployed :
  connect constants Sample.deployed counterService =
  {| outcome := Return tt;
     after := {| contract :=
                   Some {| target := "0x4195c66979168212232B2d88cb15fd48c5072c83";
                           runner := Some Sample.user |};
                 provider := Some {| eip1193 := InjectedProvider |};
                 signer := Some Sample.user |};
     trace := [ProviderGetSigner; ProviderGetNetwork;
               ProviderGetCode "0x4195c66979168212232B2d88cb15fd48c5072c83"] |}.
Proof. reflexivity. Qed.

Example getCounter_connected :
  outcome (getCounter Sample.deployed Sample.connected) = Return 7%Z.
Proof. reflexivity. Qed.

Example toString16_255 : toString16 255 = "ff".
Proof. reflexivity. Qed.

Example toString16_0 : toString16 0 = "0".
Proof. reflexivity. Qed.

Example includes_middle : includes "code=BAD_DATA)" "BAD_DATA" = true.
Proof. reflexivity. Qed.

Example includes_absent : includes "BAD_DAT" "BAD_DATA" = false.
Proof. reflexivity. Qed.

(** * Properties *)

(** ** Strings *)

Lemma startsWith_app (x s : string) : startsWith (x ++ s) x = true.
Proof.
  induction x as [|c x IH]; simpl.
  - reflexivity.
  - rewrite Ascii.eqb_refl. exact IH.
Qed.

Lemma includes_app (x s : string) : includes (x ++ s) x = true.
Proof.
  destruct x as [|c x]; destruct s as [|d s]; simpl;
    try reflexivity;
    rewrite Ascii.eqb_refl, startsWith_app; reflexivity.
Qed.

Lemma hexValue_hexDigit (d : N) : (d < 16)%N -> hexValue (hexDigit d) = Some d.
Proof.
  intros H.
  assert (Hd : In d [0; 1; 2; 3; 4; 5; 6; 7; 8; 9; 10; 11; 12; 13; 14; 15]%N).
  { simpl. lia. }
  simpl in Hd.
  repeat (destruct Hd as [<- | Hd]; [reflexivity|]).
  contradiction.
Qed.

Lemma parseHex_from_toString16_from (fuel : nat) :
  forall (n : N) (acc : string),
    (n < 16 ^ N.of_nat (S fuel))%N ->
    exists k : N, forall a : N,
      parseHex_from a (toString16_from (S fuel) n acc) =
      parseHex_from (a * 16 ^ k + n) acc.
Proof.
  induction fuel as [|fuel IH]; intros n acc Hn.
  - exists 1%N. intros a.
    change (16 ^ N.of_nat 1)%N with 16%N in Hn.
    cbn [toString16_from].
    apply N.ltb_lt in Hn. rewrite Hn. apply N.ltb_lt in Hn.
    cbn [parseHex_from].
    rewrite N.mod_small by exact Hn.
    rewrite hexValue_hexDigit by exact Hn.
    f_equal. change (16 ^ 1)%N with 16%N. lia.
  - cbn [toString16_from].
    destruct (n <? 16)%N eqn:Hlt.
    + exists 1%N. intros a. apply N.ltb_lt in Hlt.
      cbn [parseHex_from].
      rewrite N.mod_small by exact Hlt.
      rewrite hexValue_hexDigit by exact Hlt.
      f_equal. change (16 ^ 1)%N with 16%N. lia.
    + apply N.ltb_ge in Hlt.
      assert (Hdiv : (n / 16 < 16 ^ N.of_nat (S fuel))%N).
      { apply N.Div0.div_lt_upper_bound.
        replace (N.of_nat (S (S fuel))) with (N.succ (N.of_nat (S fuel))) in Hn
          by lia.
        rewrite N.pow_succ_r' in Hn. exact Hn. }
      destruct (IH (n / 16)%N (String (hexDigit (n mod 16)) acc) Hdiv)
        as [k Hk].
      exists (N.succ k). intros a.
      rewrite Hk. cbn [parseHex_from].
      rewrite hexValue_hexDigit by (apply N.mod_lt; lia).
      f_equal. rewrite N.pow_succ_r'.
      pose proof (N.div_mod n 16). lia.
Qed.

(** [toString16] writes lower-case hexadecimal digits that read back as
    the number. *)
Lemma parseHex_toString16 (n : N) : parseHex (toString16 n) = Some n.
Proof.
  unfold parseHex, toString16.
  assert (Hn : (n < 16 ^ N.of_nat (S (N.to_nat (N.size n))))%N).
  { pose proof (N.size_gt n) as Hs.
    apply N.lt_le_trans with (1 := Hs).
    replace (N.of_nat (S (N.to_nat (N.size n)))) with (N.succ (N.size n))
      by lia.
    apply N.le_trans with (16 ^ N.size n)%N.
    - apply N.pow_le_mono_l. lia.
    - apply N.pow_le_mono_r; lia. }
  destruct (parseHex_from_toString16_from _ n EmptyString Hn) as [k Hk].
  rewrite Hk. reflexivity.
Qed.

(** ** The fast-fail guard *)

Lemma isConnected_false (this : CounterContractService) :
  isConnected this = false <-> contract this = None.
Proof.
  unfold isConnected. destruct (contract this); split; congruence.
Qed.

Lemma isConnected_true (this : CounterContractService) :
  isConnected this = true <-> contract this <> None.
Proof.
  unfold isConnected. destruct (contract this); split; congruence.
Qed.

(** C2. While [isConnected()] is false, each of [getCounter],
    [incrementCounter], [decrementCounter], [resetCounter] and [getOwner]
    throws the not-connected error, leaves the fields as they are and
    performs no interaction with provider, signer, contract or wallet. *)
Theorem disconnected_calls_fail_at_once (w : World)
    (this : CounterContractService) :
  isConnected this = false ->
  getCounter w this = failed_at_once NotConnectedError this /\
  incrementCounter w this = failed_at_once NotConnectedError this /\
  decrementCounter w this = failed_at_once NotConnectedError this /\
  resetCounter w this = failed_at_once NotConnectedError this /\
  getOwner w this = failed_at_once NotConnectedError this.
Proof.
  intros H. apply isConnected_false in H.
  unfold getCounter, incrementCounter, decrementCounter, resetCounter,
    getOwner, bind, this_contract, failed_at_once; simpl.
  rewrite H. repeat split.
Qed.

Lemma disconnected_calls_fail_at_once_fresh :
  isConnected counterService = false /\
  trace (getCounter Sample.deployed counterService) = [] /\
  outcome (resetCounter Sample.deployed counterService) =
    Throw NotConnectedError.
Proof.
  pose proof (disconnected_calls_fail_at_once Sample.deployed counterService
                eq_refl) as (Hget & _ & _ & Hreset & _).
  split; [reflexivity|]. split.
  - rewrite Hget. reflexivity.
  - rewrite Hreset. reflexivity.
Defined.

(** ** Reading the counter *)

Lemma getCounter_resolved (w : World) (this : CounterContractService)
    (c : Contract) (v : Z) :
  contract this = Some c ->
  contract_getCounter w c = Resolve v ->
  getCounter w this =
  {| outcome := Return v; after := this; trace := [ContractGetCounter c] |}.
Proof.
  intros Hc Hr.
  unfold getCounter, bind, this_contract, try_catch, await; simpl.
  rewrite Hc; simpl. rewrite Hr; simpl. reflexivity.
Qed.

(** A rejection that is not an [Error] object has no message to carry:
    the read fails with the fixed text for an unknown error. *)
Lemma getCounter_rejected_non_error (w : World)
    (this : CounterContractService) (c : Contract) (e : JsValue) :
  contract this = Some c ->
  contract_getCounter w c = Reject e ->
  instanceofError e = false ->
  getCounter w this =
  {| outcome := Throw (ReadFailedError "알 수 없는 오류"); after := this;
     trace := [ContractGetCounter c] |}.
Proof.
  intros Hc Hr He.
  unfold getCounter, bind, this_contract, try_catch, await, when; simpl.
  rewrite Hc; simpl. rewrite Hr; simpl. rewrite He; simpl. reflexivity.
Qed.

(** C5. When the read call behind [getCounter] is rejected with an error,
    [getCounter] throws the stale-deployment error if the error's message
    contains [BAD_DATA], and otherwise the read-failed error whose message
    ends with the underlying message. *)
Theorem getCounter_classifies_read_errors (w : World)
    (this : CounterContractService) (c : Contract)
    (message : string) (code : option Z) :
  contract this = Some c ->
  contract_getCounter w c = Reject (JsError message code) ->
  getCounter w this =
  {| outcome :=
       Throw (if includes message "BAD_DATA" then StaleDeploymentError
              else ReadFailedError message);
     after := this;
     trace := [ContractGetCounter c] |}.
Proof.
  intros Hc Hr.
  unfold getCounter, bind, this_contract, try_catch, await, when; simpl.
  rewrite Hc; simpl. rewrite Hr; simpl.
  destruct (includes message "BAD_DATA"); reflexivity.
Qed.

Lemma getCounter_classifies_read_errors_stale :
  contract Sample.connected <> None /\
  outcome (getCounter Sample.stale Sample.connected) =
    Throw StaleDeploymentError.
Proof.
  split; [discriminate|].
  rewrite (getCounter_classifies_read_errors Sample.stale Sample.connected
             {| target := contractAddress constants;
                runner := Some Sample.user |}
             "could not decode result data (value=0x, code=BAD_DATA)" None
             eq_refl eq_refl).
  reflexivity.
Defined.

(** ** Mutating operations *)

Lemma mutate_unfold (w : World) (m : Mutator)
    (this : CounterContractService) :
  mutate w m this =
  match contract this with
  | None => failed_at_once NotConnectedError this
  | Some c =>
      match contract_send w c m with
      | Reject e =>
          {| outcome := Throw e; after := this; trace := [ContractSend c m] |}
      | Resolve tx =>
          match tx_wait w tx with
          | Reject e =>
              {| outcome := Throw e; after := this;
                 trace := [ContractSend c m; TxWait tx] |}
          | Resolve u =>
              {| outcome := Return u; after := this;
                 trace := [ContractSend c m; TxWait tx] |}
          end
      end
  end.
Proof.
  destruct m;
    unfold mutate, incrementCounter, decrementCounter, resetCounter, bind,
      this_contract, await, failed_at_once; simpl;
    (destruct (contract this) as [c|]; simpl; [|reflexivity]);
    (destruct (contract_send w c _) as [tx|e]; simpl; [|reflexivity]);
    destruct (tx_wait w tx); reflexivity.
Qed.

(** C9. A mutating operation first submits the call, which yields the
    pending transaction, and then waits for that transaction; it returns
    exactly when both the submission and the wait resolved, and whenever
    the submission resolved the wait was performed after it. *)
Theorem mutation_returns_only_after_confirmation (w : World) (m : Mutator)
    (this : CounterContractService) (c : Contract) :
  contract this = Some c ->
  (outcome (mutate w m this) = Return tt <->
   exists tx, contract_send w c m = Resolve tx /\ tx_wait w tx = Resolve tt) /\
  (forall tx, contract_send w c m = Resolve tx ->
     trace (mutate w m this) = [ContractSend c m; TxWait tx]) /\
  (forall tx e, contract_send w c m = Resolve tx ->
     tx_wait w tx = Reject e -> outcome (mutate w m this) = Throw e) /\
  (forall e, contract_send w c m = Reject e ->
     trace (mutate w m this) = [ContractSend c m]).
Proof.
  intros Hc. rewrite mutate_unfold, Hc.
  repeat split.
  - destruct (contract_send w c m) as [tx|e]; simpl; [|discriminate].
    destruct (tx_wait w tx) as [[]|e] eqn:Hw; simpl; [|discriminate].
    intros _. exists tx. split; [reflexivity|exact Hw].
  - intros (tx & Hs & Hw). rewrite Hs, Hw. reflexivity.
  - intros tx Hs. rewrite Hs. destruct (tx_wait w tx); reflexivity.
  - intros tx e Hs Hw. rewrite Hs, Hw. reflexivity.
  - intros e Hs. rewrite Hs. reflexivity.
Qed.

Lemma mutation_returns_only_after_confirmation_reset :
  contract Sample.connected <> None /\
  trace (resetCounter Sample.deployed Sample.connected) =
    [ContractSend {| target := contractAddress constants;
                     runner := Some Sample.user |} resetCounter_method;
     TxWait Sample.pending] /\
  outcome (resetCounter Sample.reverting Sample.connected) =
    Throw Sample.reverted.
Proof.
  split; [discriminate|].
  pose proof (mutation_returns_only_after_confirmation Sample.deployed
                resetCounter_method Sample.connected _ eq_refl)
    as (_ & Htrace & _).
  pose proof (mutation_returns_only_after_confirmation Sample.reverting
                resetCounter_method Sample.connected _ eq_refl)
    as (_ & _ & Hwait & _).
  split.
  - exact (Htrace Sample.pending eq_refl).
  - exact (Hwait Sample.pending Sample.reverted eq_refl eq_refl).
Defined.

(** Counterexample to C8.  The user rejects the signature of
    [incrementCounter]: the operation throws the wallet's own rejection
    (code 4001), which is not an [Error] made by the class. *)
Lemma incrementCounter_rejection_escapes_raw :
  contract_send Sample.rejecting
    {| target := contractAddress constants; runner := Some Sample.user |}
    incrementCounter_method = Reject Sample.user_rejected /\
  outcome (incrementCounter Sample.rejecting Sample.connected) =
    Throw Sample.user_rejected /\
  ~ (exists message : string,
        outcome (incrementCounter Sample.rejecting Sample.connected) =
        Throw (Error message)).
Proof.
  split; [reflexivity|]. split; [reflexivity|].
  intros [message H]. vm_compute in H. discriminate H.
Qed.

(** C8, amended.  A mutating operation has no handler: when the
    submission or the wait for confirmation is rejected, the operation
    throws the very value it was rejected with; nothing is rewrapped and
    nothing is swallowed. *)
Theorem mutation_failure_is_rethrown_unchanged (w : World) (m : Mutator)
    (this : CounterContractService) (c : Contract) :
  contract this = Some c ->
  (forall e, contract_send w c m = Reject e ->
     mutate w m this =
     {| outcome := Throw e; after := this; trace := [ContractSend c m] |}) /\
  (forall tx e, contract_send w c m = Resolve tx ->
     tx_wait w tx = Reject e ->
     mutate w m this =
     {| outcome := Throw e; after := this;
        trace := [ContractSend c m; TxWait tx] |}).
Proof.
  intros Hc. rewrite mutate_unfold, Hc. split.
  - intros e Hs. rewrite Hs. reflexivity.
  - intros tx e Hs Hw. rewrite Hs, Hw. reflexivity.
Qed.

Lemma mutation_failure_is_rethrown_unchanged_decrement :
  contract Sample.connected <> None /\
  outcome (decrementCounter Sample.rejecting Sample.connected) =
    Throw Sample.user_rejected /\
  outcome (decrementCounter Sample.reverting Sample.connected) =
    Throw Sample.reverted.
Proof.
  split; [discriminate|].
  pose proof (mutation_failure_is_rethrown_unchanged Sample.rejecting
                decrementCounter_method Sample.connected _ eq_refl)
    as (Hsend & _).
  pose proof (mutation_failure_is_rethrown_unchanged Sample.reverting
                decrementCounter_method Sample.connected _ eq_refl)
    as (_ & Hwait).
  split.
  - exact (f_equal outcome (Hsend Sample.user_rejected eq_refl)).
  - exact (f_equal outcome
             (Hwait Sample.pending Sample.reverted eq_refl eq_refl)).
Defined.

(** ** Switching the wallet's network *)

Lemma code_is_4902 (e : JsValue) :
  code_is e 4902 = true <-> code_of e = Some 4902%Z.
Proof.
  unfold code_is. destruct (code_of e) as [c|].
  - rewrite Z.eqb_eq. split; congruence.
  - split; discriminate.
Qed.

Lemma switchToCorrectNetwork_unfold (K : Constants) (w : World)
    (this : CounterContractService) (win : Window) (eth : Ethereum) :
  window w = Some win ->
  ethereum win = Some eth ->
  switchToCorrectNetwork K w this =
  match ethereum_request w (wallet_switchEthereumChain K) with
  | Resolve u =>
      {| outcome := Return u; after := this;
         trace := [EthereumRequest (wallet_switchEthereumChain K)] |}
  | Reject e =>
      if code_is e 4902 then
        {| outcome :=
             match ethereum_request w (wallet_addEthereumChain K) with
             | Resolve u => Return u
             | Reject _ =>
                 Throw (NetworkSwitchError_add (name (CURRENT_NETWORK K)))
             end;
           after := this;
           trace := [EthereumRequest (wallet_switchEthereumChain K);
                     EthereumRequest (wallet_addEthereumChain K)] |}
      else
        {| outcome :=
             Throw (match e with
                    | JsNullish => TypeError_code
                    | _ => NetworkSwitchError_switch
                    end);
           after := this;
           trace := [EthereumRequest (wallet_switchEthereumChain K)] |}
  end.
Proof.
  intros Hwin Heth.
  unfold switchToCorrectNetwork. rewrite Hwin, Heth.
  fold (switchRequest ("0x" ++ toString16 (chainId (CURRENT_NETWORK K)))).
  change (switchRequest ("0x" ++ toString16 (chainId (CURRENT_NETWORK K))))
    with (wallet_switchEthereumChain K).
  change (addRequest K ("0x" ++ toString16 (chainId (CURRENT_NETWORK K))))
    with (wallet_addEthereumChain K).
  unfold try_catch, await.
  destruct (ethereum_request w (wallet_switchEthereumChain K)) as [u|e];
    simpl; [reflexivity|].
  destruct e as [msg code|code|]; simpl; try reflexivity;
    unfold code_is; simpl;
    (destruct code as [z|]; [destruct (Z.eqb z 4902)|]); simpl;
    try reflexivity;
    destruct (ethereum_request w (wallet_addEthereumChain K));
    reflexivity.
Qed.

(** C6. With a wallet present, [switchToCorrectNetwork] first sends
    [wallet_switchEthereumChain] with the required chain id in hexadecimal
    behind [0x] ([0xaa36a7] for 11155111); it then sends
    [wallet_addEthereumChain], with that chain id, the configured name, RPC
    URL and explorer URL and the currency ETH/ETH/18, exactly when the
    first request was rejected with code 4902, and sends nothing else. *)
Theorem switch_then_add_exactly_on_4902 (K : Constants) (w : World)
    (this : CounterContractService) (win : Window) (eth : Ethereum) :
  window w = Some win ->
  ethereum win = Some eth ->
  let r := switchToCorrectNetwork K w this in
  let rejected_4902 :=
    exists e, ethereum_request w (wallet_switchEthereumChain K) = Reject e /\
              code_of e = Some 4902%Z in
  parseHex (toString16 (chainId (CURRENT_NETWORK K))) =
    Some (chainId (CURRENT_NETWORK K)) /\
  wallet_switchEthereumChain constants =
    {| method := "wallet_switchEthereumChain";
       params := [SwitchChainParam "0xaa36a7"] |} /\
  wallet_addEthereumChain constants =
    {| method := "wallet_addEthereumChain";
       params :=
         [AddChainParam "0xaa36a7" "Sepolia Test Network"
            ["https://sepolia.infura.io/v3/"]
            ["https://sepolia.etherscan.io/"]
            {| currency_name := "ETH"; symbol := "ETH"; decimals := 18 |}] |} /\
  hd_error (trace r) = Some (EthereumRequest (wallet_switchEthereumChain K)) /\
  (rejected_4902 ->
   trace r = [EthereumRequest (wallet_switchEthereumChain K);
              EthereumRequest (wallet_addEthereumChain K)]) /\
  (~ rejected_4902 ->
   trace r = [EthereumRequest (wallet_switchEthereumChain K)]).
Proof.
  intros Hwin Heth r rejected_4902. subst r rejected_4902.
  rewrite (switchToCorrectNetwork_unfold K w this win eth Hwin Heth).
  split; [apply parseHex_toString16|].
  split; [reflexivity|]. split; [reflexivity|].
  destruct (ethereum_request w (wallet_switchEthereumChain K)) as [u|e].
  - simpl. split; [reflexivity|]. split; [|reflexivity].
    intros (e & He & _). discriminate He.
  - destruct (code_is e 4902) eqn:Hcode; simpl.
    + split; [reflexivity|]. split; [reflexivity|].
      intros Hno. exfalso. apply Hno. exists e. split; [reflexivity|].
      apply code_is_4902. exact Hcode.
    + split; [reflexivity|]. split; [|reflexivity].
      intros (e' & He' & Hc). injection He' as <-.
      apply code_is_4902 in Hc. congruence.
Qed.

Lemma switch_then_add_exactly_on_4902_unregistered :
  window Sample.unregistered = Sample.wallet /\
  trace (switchToCorrectNetwork constants Sample.unregistered counterService) =
  [EthereumRequest {| method := "wallet_switchEthereumChain";
                      params := [SwitchChainParam "0xaa36a7"] |};
   EthereumRequest
     {| method := "wallet_addEthereumChain";
        params :=
          [AddChainParam "0xaa36a7" "Sepolia Test Network"
             ["https://sepolia.infura.io/v3/"]
             ["https://sepolia.etherscan.io/"]
             {| currency_name := "ETH"; symbol := "ETH"; decimals := 18 |}] |}].
Proof.
  split; [reflexivity|].
  pose proof (switch_then_add_exactly_on_4902 constants Sample.unregistered
                counterService _ InjectedProvider eq_refl eq_refl)
    as (_ & _ & _ & _ & Hadd & _).
  apply Hadd. exists Sample.unknown_chain. split; reflexivity.
Defined.

(** Counterexample to C7.  The user declines the switch (code
    4001): the operation fails with the fixed text for a failed switch,
    and that text does not contain the name of the required network. *)
Lemma switch_failure_message_omits_network :
  ethereum_request Sample.rejecting (wallet_switchEthereumChain constants) =
    Reject Sample.user_rejected /\
  outcome (switchToCorrectNetwork constants Sample.rejecting counterService) =
    Throw (Error "네트워크 전환에 실패했습니다.") /\
  includes "네트워크 전환에 실패했습니다."
    (name (CURRENT_NETWORK constants)) = false.
Proof.
  repeat split.
Qed.

(** C7, amended.  With a wallet present: when the switch
    request is rejected with code 4902 and the request that adds the chain
    is rejected too, the operation fails with an error whose message
    begins with the name of the required network; when the switch request
    is rejected with any other value that is not [null] or [undefined],
    it fails with the error whose message is the fixed text for a failed
    switch. *)
Theorem switch_failures_are_rewrapped (K : Constants) (w : World)
    (this : CounterContractService) (win : Window) (eth : Ethereum) :
  window w = Some win ->
  ethereum win = Some eth ->
  (forall e e',
     ethereum_request w (wallet_switchEthereumChain K) = Reject e ->
     code_of e = Some 4902%Z ->
     ethereum_request w (wallet_addEthereumChain K) = Reject e' ->
     outcome (switchToCorrectNetwork K w this) =
       Throw (Error (name (CURRENT_NETWORK K) ++ "을 추가할 수 없습니다.")) /\
     includes (name (CURRENT_NETWORK K) ++ "을 추가할 수 없습니다.")
       (name (CURRENT_NETWORK K)) = true) /\
  (forall e,
     ethereum_request w (wallet_switchEthereumChain K) = Reject e ->
     code_of e <> Some 4902%Z ->
     e <> JsNullish ->
     outcome (switchToCorrectNetwork K w this) =
       Throw (Error "네트워크 전환에 실패했습니다.")).
Proof.
  intros Hwin Heth.
  rewrite (switchToCorrectNetwork_unfold K w this win eth Hwin Heth).
  split.
  - intros e e' Hs Hc Ha. rewrite Hs.
    apply code_is_4902 in Hc. rewrite Hc; simpl. rewrite Ha.
    split; [reflexivity|apply includes_app].
  - intros e Hs Hc Hn. rewrite Hs.
    destruct (code_is e 4902) eqn:Hcode.
    + apply code_is_4902 in Hcode. contradiction.
    + simpl. destruct e; [reflexivity|reflexivity|contradiction].
Qed.

Lemma switch_failures_are_rewrapped_declined :
  window Sample.unregistered_declined = Sample.wallet /\
  outcome (switchToCorrectNetwork constants Sample.unregistered_declined
             counterService) =
    Throw (Error "Sepolia Test Network을 추가할 수 없습니다.") /\
  outcome (switchToCorrectNetwork constants Sample.rejecting counterService) =
    Throw (Error "네트워크 전환에 실패했습니다.").
Proof.
  split; [reflexivity|].
  pose proof (switch_failures_are_rewrapped constants
                Sample.unregistered_declined counterService _
                InjectedProvider eq_refl eq_refl) as (Hadd & _).
  pose proof (switch_failures_are_rewrapped constants Sample.rejecting
                counterService _ InjectedProvider eq_refl eq_refl)
    as (_ & Hswitch).
  split.
  - exact (proj1 (Hadd Sample.unknown_chain Sample.user_rejected
                    eq_refl eq_refl eq_refl)).
  - apply (Hswitch Sample.user_rejected eq_refl); discriminate.
Defined.

(** ** connect *)

Lemma connect_no_environment (K : Constants) (w : World)
    (this : CounterContractService) :
  window w = None \/ (exists win, window w = Some win /\ ethereum win = None) ->
  after (connect K w this) = this /\ trace (connect K w this) = [] /\
  exists e, outcome (connect K w this) = Throw e.
Proof.
  unfold connect. intros [H | (win & H & He)]; rewrite H; [|rewrite He];
    simpl; repeat split; eexists; reflexivity.
Qed.

Lemma connect_unfold (K : Constants) (w : World)
    (this : CounterContractService) (win : Window) (eth : Ethereum) :
  window w = Some win ->
  ethereum win = Some eth ->
  connect K w this =
  match provider_getSigner w with
  | Reject e =>
      {| outcome := Throw e; after := with_provider this eth;
         trace := [ProviderGetSigner] |}
  | Resolve s =>
      match provider_getNetwork w with
      | Reject e =>
          {| outcome := Throw e; after := with_provider_signer this eth s;
             trace := [ProviderGetSigner; ProviderGetNetwork] |}
      | Resolve _ =>
          if isAddress w (contractAddress K) then
            match provider_getCode w (contractAddress K) with
            | Reject e =>
                {| outcome := Throw e;
                   after := with_provider_signer this eth s;
                   trace := [ProviderGetSigner; ProviderGetNetwork;
                             ProviderGetCode (contractAddress K)] |}
            | Resolve code =>
                if String.eqb code "0x" then
                  {| outcome :=
                       Throw (ContractNotDeployedError (contractAddress K));
                     after := with_provider_signer this eth s;
                     trace := [ProviderGetSigner; ProviderGetNetwork;
                               ProviderGetCode (contractAddress K)] |}
                else
                  {| outcome := Return tt;
                     after :=
                       {| contract := Some {| target := contractAddress K;
                                              runner := Some s |};
                          provider := Some {| eip1193 := eth |};
                          signer := Some s |};
                     trace := [ProviderGetSigner; ProviderGetNetwork;
                               ProviderGetCode (contractAddress K)] |}
            end
          else
            {| outcome := Throw (InvalidAddressError (contractAddress K));
               after := with_provider_signer this eth s;
               trace := [ProviderGetSigner; ProviderGetNetwork] |}
      end
  end.
Proof.
  intros Hwin Heth. unfold connect. rewrite Hwin, Heth.
  unfold bind, await, when, set_provider, set_signer, set_contract,
    this_signer, throw, ret, with_provider, with_provider_signer; simpl.
  destruct (provider_getSigner w) as [s|e]; simpl; [|reflexivity].
  destruct (provider_getNetwork w) as [n|e]; simpl; [|reflexivity].
  destruct (isAddress w (contractAddress K)); simpl; [|reflexivity].
  destruct (provider_getCode w (contractAddress K)) as [code|e]; simpl;
    [|reflexivity].
  destruct (String.eqb code "0x"); reflexivity.
Qed.

(** Whether the host offers a wallet is decided by the world alone. *)
Lemma environment_cases (w : World) :
  (window w = None \/ exists win, window w = Some win /\ ethereum win = None)
  \/ exists win eth, window w = Some win /\ ethereum win = Some eth.
Proof.
  destruct (window w) as [win|].
  - destruct (ethereum win) as [eth|] eqn:He.
    + right. exists win, eth. split; [reflexivity|exact He].
    + left. right. exists win. split; [reflexivity|exact He].
  - left. left. reflexivity.
Qed.

(** Counterexample to C1.  A first [connect] on a chain where
    the address holds no code fails, and afterwards the provider and the
    signer are set while the contract handle is not: the triple is
    neither fully present nor fully absent. *)
Lemma failed_connect_keeps_provider_and_signer :
  outcome (connect constants Sample.wrong_chain counterService) =
    Throw (ContractNotDeployedError
             "0x4195c66979168212232B2d88cb15fd48c5072c83") /\
  after (connect constants Sample.wrong_chain counterService) =
    {| contract := None;
       provider := Some {| eip1193 := InjectedProvider |};
       signer := Some Sample.user |} /\
  ~ fully_present (after (connect constants Sample.wrong_chain counterService)) /\
  ~ fully_absent (after (connect constants Sample.wrong_chain counterService)).
Proof.
  split; [reflexivity|]. split; [reflexivity|]. split.
  - intros (Hc & _). apply Hc. reflexivity.
  - intros (_ & Hp & _). discriminate Hp.
Qed.

(** C1, amended.  A [connect] that returns leaves all three fields set,
    and on a service whose contract handle was absent the three fields are
    all set exactly when [connect] returns.  A [connect] that throws
    leaves the contract handle as it was and undoes none of the
    assignments made before the failing step: where the host has no
    window or no wallet it throws with the fields unchanged; where the
    signer query is rejected it throws that rejection and has replaced the
    provider only; where the signer was obtained and the network query is
    rejected, the address is not accepted, the bytecode query is rejected
    or the bytecode is [0x], it throws and has replaced the provider and
    set the signer to the one just obtained. *)
Theorem connect_completes_on_success_only (K : Constants) (w : World)
    (this : CounterContractService) :
  let r := connect K w this in
  (outcome r = Return tt -> fully_present (after r)) /\
  (contract this = None ->
   (fully_present (after r) <-> outcome r = Return tt)) /\
  (forall e, outcome r = Throw e -> contract (after r) = contract this) /\
  (window w = None \/
   (exists win, window w = Some win /\ ethereum win = None) ->
   (exists e, outcome r = Throw e) /\ after r = this) /\
  (forall win eth e,
     window w = Some win -> ethereum win = Some eth ->
     provider_getSigner w = Reject e ->
     outcome r = Throw e /\ after r = with_provider this eth) /\
  (forall win eth s,
     window w = Some win -> ethereum win = Some eth ->
     provider_getSigner w = Resolve s ->
     (exists e, provider_getNetwork w = Reject e) \/
     isAddress w (contractAddress K) = false \/
     (exists e, provider_getCode w (contractAddress K) = Reject e) \/
     provider_getCode w (contractAddress K) = Resolve "0x" ->
     (exists e, outcome r = Throw e) /\
     after r = with_provider_signer this eth s).
Proof.
  intros r. subst r.
  destruct (environment_cases w) as [Hno | (win & eth & Hwin & Heth)].
  - destruct (connect_no_environment K w this Hno) as (Ha & _ & e & Ho).
    rewrite Ha, Ho.
    split; [discriminate|].
    split; [intros Hc; split;
            [intros (Hc' & _); contradiction|discriminate]|].
    split; [intros e' _; reflexivity|].
    split; [intros _; split; [exists e|]; reflexivity|].
    split.
    + intros win eth e' Hwin Heth _.
      destruct Hno as [Hno | (win' & Hwin' & Heth')]; congruence.
    + intros win eth s Hwin Heth _.
      destruct Hno as [Hno | (win' & Hwin' & Heth')]; congruence.
  - rewrite (connect_unfold K w this win eth Hwin Heth).
    assert (Hsame : forall win' eth',
               window w = Some win' -> ethereum win' = Some eth' ->
               eth' = eth).
    { intros win' eth' Hwin' Heth'. congruence. }
    split; [|split; [|split; [|split; [|split]]]].
    + destruct (provider_getSigner w) as [s|e]; [|discriminate].
      destruct (provider_getNetwork w) as [n|e]; [|discriminate].
      destruct (isAddress w (contractAddress K)); [|discriminate].
      destruct (provider_getCode w (contractAddress K)) as [code|e];
        [|discriminate].
      destruct (String.eqb code "0x"); [discriminate|].
      intros _. unfold fully_present; simpl. repeat split; discriminate.
    + intros Hc. unfold fully_present.
      destruct (provider_getSigner w) as [s|e]; simpl;
        [|split; [intros (Hc' & _); contradiction|discriminate]].
      destruct (provider_getNetwork w) as [n|e]; simpl;
        [|split; [intros (Hc' & _); contradiction|discriminate]].
      destruct (isAddress w (contractAddress K)); simpl;
        [|split; [intros (Hc' & _); contradiction|discriminate]].
      destruct (provider_getCode w (contractAddress K)) as [code|e]; simpl;
        [|split; [intros (Hc' & _); contradiction|discriminate]].
      destruct (String.eqb code "0x"); simpl;
        [split; [intros (Hc' & _); contradiction|discriminate]|].
      split; [reflexivity|]. intros _. repeat split; discriminate.
    + intros e'.
      destruct (provider_getSigner w) as [s|e]; [|reflexivity].
      destruct (provider_getNetwork w) as [n|e]; [|reflexivity].
      destruct (isAddress w (contractAddress K)); [|reflexivity].
      destruct (provider_getCode w (contractAddress K)) as [code|e];
        [|reflexivity].
      destruct (String.eqb code "0x"); [reflexivity|discriminate].
    + intros [Hno | (win' & Hwin' & Heth')]; congruence.
    + intros win' eth' e Hwin' Heth' Hs.
      rewrite (Hsame win' eth' Hwin' Heth'), Hs. split; reflexivity.
    + intros win' eth' s Hwin' Heth' Hs Hfail.
      rewrite (Hsame win' eth' Hwin' Heth'), Hs.
      destruct (provider_getNetwork w) as [n|e];
        [|split; [exists e|]; reflexivity].
      destruct (isAddress w (contractAddress K));
        [|split; [eexists|]; reflexivity].
      destruct (provider_getCode w (contractAddress K)) as [code|e];
        [|split; [exists e|]; reflexivity].
      destruct (String.eqb code "0x") eqn:Hcode;
        [split; [eexists|]; reflexivity|].
      exfalso.
      destruct Hfail as [(e & H) | [H | [(e & H) | H]]];
        try discriminate H.
      injection H as ->. discriminate Hcode.
Qed.

Lemma connect_completes_on_success_only_first_attempt :
  fully_present (after (connect constants Sample.deployed counterService)) /\
  ~ fully_present (after (connect constants Sample.wrong_chain counterService)) /\
  contract (after (connect constants Sample.wrong_chain Sample.connected)) =
    contract Sample.connected /\
  after (connect constants Sample.server Sample.connected) =
    Sample.connected /\
  after (connect constants Sample.locked counterService) =
    {| contract := None;
       provider := Some {| eip1193 := InjectedProvider |};
       signer := None |} /\
  after (connect constants Sample.switched_account Sample.connected) =
    {| contract := contract Sample.connected;
       provider := Some {| eip1193 := InjectedProvider |};
       signer := Some Sample.other_user |}.
Proof.
  pose proof (connect_completes_on_success_only constants Sample.deployed
                counterService) as (Hok & _).
  pose proof (connect_completes_on_success_only constants Sample.wrong_chain
                counterService) as (_ & Hiff & _).
  pose proof (connect_completes_on_success_only constants Sample.wrong_chain
                Sample.connected) as (_ & _ & Hkeep & _).
  pose proof (connect_completes_on_success_only constants Sample.server
                Sample.connected) as (_ & _ & _ & Hnone & _).
  pose proof (connect_completes_on_success_only constants Sample.locked
                counterService) as (_ & _ & _ & _ & Hrefused & _).
  pose proof (connect_completes_on_success_only constants
                Sample.switched_account Sample.connected)
    as (_ & _ & _ & _ & _ & Hlater).
  split; [exact (Hok eq_refl)|]. split.
  { intros Hfull. apply (Hiff eq_refl) in Hfull. discriminate Hfull. }
  split; [exact (Hkeep _ eq_refl)|].
  split; [exact (proj2 (Hnone (or_introl eq_refl)))|].
  split.
  - exact (proj2 (Hrefused _ InjectedProvider Sample.user_rejected
                    eq_refl eq_refl eq_refl)).
  - exact (proj2 (Hlater _ InjectedProvider Sample.other_user
                    eq_refl eq_refl eq_refl
                    (or_intror (or_intror (or_intror eq_refl))))).
Defined.

(** Counterexample to C3.  With a malformed configured address
    and a wallet that answers, [connect] fails with the invalid-address
    error only after it has acquired the signer and queried the network. *)
Lemma invalid_address_is_detected_after_two_calls :
  isAddress Sample.deployed (contractAddress Sample.misconfigured) = false /\
  outcome (connect Sample.misconfigured Sample.deployed counterService) =
    Throw (InvalidAddressError "0x4195c669") /\
  trace (connect Sample.misconfigured Sample.deployed counterService) =
    [ProviderGetSigner; ProviderGetNetwork] /\
  trace (connect Sample.misconfigured Sample.deployed counterService) <> [].
Proof.
  repeat split. discriminate.
Qed.

(** C3, amended.  With a malformed configured address,
    [connect] never returns, never sets the contract handle and never
    queries the bytecode; where the wallet is present and both the signer
    acquisition and the network query resolve, it throws the
    invalid-address error, having performed exactly those two calls. *)
Theorem malformed_address_stops_before_bytecode_query (K : Constants)
    (w : World) (this : CounterContractService) :
  isAddress w (contractAddress K) = false ->
  let r := connect K w this in
  outcome r <> Return tt /\
  contract (after r) = contract this /\
  (forall address, ~ In (ProviderGetCode address) (trace r)) /\
  (forall win eth s n,
     window w = Some win -> ethereum win = Some eth ->
     provider_getSigner w = Resolve s ->
     provider_getNetwork w = Resolve n ->
     outcome r = Throw (InvalidAddressError (contractAddress K)) /\
     trace r = [ProviderGetSigner; ProviderGetNetwork]).
Proof.
  intros Hbad r. subst r.
  destruct (environment_cases w) as [Hno | (win & eth & Hwin & Heth)].
  - destruct (connect_no_environment K w this Hno) as (Ha & Ht & e & Ho).
    rewrite Ha, Ht, Ho. split; [discriminate|]. split; [reflexivity|].
    split; [intros address []|].
    intros win eth s n Hwin Heth _ _.
    destruct Hno as [Hno | (win' & Hwin' & Heth')]; congruence.
  - rewrite (connect_unfold K w this win eth Hwin Heth), Hbad.
    destruct (provider_getSigner w) as [s|e]; simpl.
    + destruct (provider_getNetwork w) as [n|e]; simpl.
      * split; [discriminate|]. split; [reflexivity|]. split.
        -- intros address [H | [H | []]]; discriminate H.
        -- intros; split; reflexivity.
      * split; [discriminate|]. split; [reflexivity|]. split.
        -- intros address [H | [H | []]]; discriminate H.
        -- intros; discriminate.
    + split; [discriminate|]. split; [reflexivity|]. split.
      * intros address [H | []]; discriminate H.
      * intros; discriminate.
Qed.

Lemma malformed_address_stops_before_bytecode_query_misconfigured :
  isAddress Sample.deployed (contractAddress Sample.misconfigured) = false /\
  outcome (connect Sample.misconfigured Sample.deployed counterService) =
    Throw (InvalidAddressError "0x4195c669") /\
  contract (after (connect Sample.misconfigured Sample.deployed
                     counterService)) = None.
Proof.
  split; [reflexivity|].
  pose proof (malformed_address_stops_before_bytecode_query
                Sample.misconfigured Sample.deployed counterService eq_refl)
    as (_ & Hc & _ & Hthrow).
  split.
  - exact (proj1 (Hthrow _ InjectedProvider Sample.user Sample.sepolia
                    eq_refl eq_refl eq_refl eq_refl)).
  - exact Hc.
Defined.

(** Counterexample to C4.  A service that connected on Sepolia
    calls [connect] again after the wallet moved to a chain where the
    address holds no code: [connect] fails with the not-deployed error and
    [isConnected()] still returns true, the earlier handle being kept. *)
Lemma failed_reconnect_stays_connected :
  provider_getCode Sample.wrong_chain (contractAddress constants) =
    Resolve "0x" /\
  outcome (connect constants Sample.wrong_chain Sample.connected) =
    Throw (ContractNotDeployedError (contractAddress constants)) /\
  isConnected (after (connect constants Sample.wrong_chain Sample.connected)) =
    true.
Proof.
  repeat split.
Qed.

(** C4, amended.  When [connect] reaches the bytecode query
    and the bytecode is empty, it throws the not-deployed error and leaves
    the contract handle as it was: [isConnected()] returns afterwards what
    it returned before, so it is false after the failure whenever it was
    false before. *)
Theorem empty_bytecode_fails_and_keeps_handle (K : Constants) (w : World)
    (this : CounterContractService) (win : Window) (eth : Ethereum)
    (s : JsonRpcSigner) (n : Network) :
  window w = Some win -> ethereum win = Some eth ->
  provider_getSigner w = Resolve s ->
  provider_getNetwork w = Resolve n ->
  isAddress w (contractAddress K) = true ->
  provider_getCode w (contractAddress K) = Resolve "0x" ->
  let r := connect K w this in
  outcome r = Throw (ContractNotDeployedError (contractAddress K)) /\
  contract (after r) = contract this /\
  isConnected (after r) = isConnected this /\
  (isConnected this = false -> isConnected (after r) = false).
Proof.
  intros Hwin Heth Hs Hn Ha Hc r. subst r.
  rewrite (connect_unfold K w this win eth Hwin Heth), Hs, Hn, Ha, Hc.
  simpl. repeat split. intros H. exact H.
Qed.

Lemma empty_bytecode_fails_and_keeps_handle_fresh :
  provider_getCode Sample.wrong_chain (contractAddress constants) =
    Resolve "0x" /\
  outcome (connect constants Sample.wrong_chain counterService) =
    Throw (ContractNotDeployedError (contractAddress constants)) /\
  isConnected (after (connect constants Sample.wrong_chain counterService)) =
    false.
Proof.
  split; [reflexivity|].
  pose proof (empty_bytecode_fails_and_keeps_handle constants
                Sample.wrong_chain counterService _ InjectedProvider
                Sample.user Sample.mainnet
                eq_refl eq_refl eq_refl eq_refl eq_refl eq_refl)
    as (Hthrow & _ & _ & Hfalse).
  split; [exact Hthrow|exact (Hfalse eq_refl)].
Defined.

(** ** Queries guarded by the provider or the signer *)

Lemma getNetworkInfo_unfold (w : World) (this : CounterContractService) :
  getNetworkInfo w this =
  match provider this with
  | None => failed_at_once NotConnectedError_provider this
  | Some _ =>
      {| outcome :=
           match provider_getNetwork w with
           | Resolve n =>
               Return {| info_chainId := network_chainId n;
                         info_name := network_name n |}
           | Reject e => Throw e
           end;
         after := this;
         trace := [ProviderGetNetwork] |}
  end.
Proof.
  unfold getNetworkInfo, bind, this_provider, await, failed_at_once; simpl.
  destruct (provider this); simpl; [|reflexivity].
  destruct (provider_getNetwork w); reflexivity.
Qed.

Lemma getWalletAddress_unfold (w : World) (this : CounterContractService) :
  getWalletAddress w this =
  match signer this with
  | None => failed_at_once NotConnectedError_signer this
  | Some s =>
      {| outcome :=
           match signer_getAddress w s with
           | Resolve a => Return a
           | Reject e => Throw e
           end;
         after := this;
         trace := [SignerGetAddress s] |}
  end.
Proof.
  unfold getWalletAddress, bind, this_signer, await, failed_at_once; simpl.
  destruct (signer this) as [s|]; simpl; [|reflexivity].
  destruct (signer_getAddress w s); reflexivity.
Qed.

Lemma getContractDebugInfo_unfold (K : Constants) (w : World)
    (this : CounterContractService) :
  getContractDebugInfo K w this =
  match provider this with
  | None => failed_at_once NotConnectedError_provider this
  | Some _ =>
      match provider_getNetwork w with
      | Reject e =>
          {| outcome := Throw e; after := this;
             trace := [ProviderGetNetwork] |}
      | Resolve n =>
          {| outcome :=
               match provider_getCode w (contractAddress K) with
               | Resolve code =>
                   Return {| debug_contractAddress := contractAddress K;
                             networkInfo :=
                               {| info_chainId := network_chainId n;
                                  info_name := network_name n |};
                             contractCode := code;
                             isContractDeployed :=
                               negb (String.eqb code "0x") |}
               | Reject e => Throw e
               end;
             after := this;
             trace := [ProviderGetNetwork;
                       ProviderGetCode (contractAddress K)] |}
      end
  end.
Proof.
  unfold getContractDebugInfo, bind, this_provider, await, failed_at_once;
    simpl.
  destruct (provider this); simpl; [|reflexivity].
  destruct (provider_getNetwork w); simpl; [|reflexivity].
  destruct (provider_getCode w (contractAddress K)); reflexivity.
Qed.

(** Counterexample to C10.  A connected service calls [connect] again
    after the user moved to another account and chain; the attempt fails
    at the bytecode check, and [isConnected()] is true afterwards, not
    false, while [getNetworkInfo] and [getWalletAddress] answer. *)
Lemma failed_reconnect_answers_queries_while_connected :
  provider_getCode Sample.switched_account (contractAddress constants) =
    Resolve "0x" /\
  outcome (connect constants Sample.switched_account Sample.connected) =
    Throw (ContractNotDeployedError (contractAddress constants)) /\
  isConnected (after (connect constants Sample.switched_account
                        Sample.connected)) = true /\
  isConnected (after (connect constants Sample.switched_account
                        Sample.connected)) <> false /\
  outcome (getNetworkInfo Sample.switched_account
             (after (connect constants Sample.switched_account
                       Sample.connected))) =
    Return {| info_chainId := 1; info_name := "mainnet" |} /\
  outcome (getWalletAddress Sample.switched_account
             (after (connect constants Sample.switched_account
                       Sample.connected))) =
    Return "0x3C44CdDdB6a900fa2b585dd299e03d12FA4293BC".
Proof.
  repeat split. discriminate.
Qed.

(** C10, amended.  Let [connect] fail at the address validation or at
    the bytecode check.  The contract handle is as it was before the
    attempt, so [isConnected()] returns what it returned before: false if
    it was false, true after a failed reconnect.  Either way the provider
    and the signer are set, and afterwards, in whatever state the world
    then is, [getNetworkInfo], [getWalletAddress] and
    [getContractDebugInfo] pass their guard: each performs its calls, and
    returns its result when those calls resolve. *)
Theorem queries_work_after_failed_validation (K : Constants) (w : World)
    (this : CounterContractService) (win : Window) (eth : Ethereum)
    (s : JsonRpcSigner) (n : Network) :
  window w = Some win -> ethereum win = Some eth ->
  provider_getSigner w = Resolve s ->
  provider_getNetwork w = Resolve n ->
  isAddress w (contractAddress K) = false \/
  provider_getCode w (contractAddress K) = Resolve "0x" ->
  let r := connect K w this in
  (outcome r = Throw (InvalidAddressError (contractAddress K)) \/
   outcome r = Throw (ContractNotDeployedError (contractAddress K))) /\
  contract (after r) = contract this /\
  isConnected (after r) = isConnected this /\
  (isConnected this = false -> isConnected (after r) = false) /\
  provider (after r) = Some {| eip1193 := eth |} /\
  signer (after r) = Some s /\
  forall w' : World,
    (trace (getNetworkInfo w' (after r)) = [ProviderGetNetwork] /\
     forall n', provider_getNetwork w' = Resolve n' ->
       outcome (getNetworkInfo w' (after r)) =
       Return {| info_chainId := network_chainId n';
                 info_name := network_name n' |}) /\
    (trace (getWalletAddress w' (after r)) = [SignerGetAddress s] /\
     forall a, signer_getAddress w' s = Resolve a ->
       outcome (getWalletAddress w' (after r)) = Return a) /\
    (hd_error (trace (getContractDebugInfo K w' (after r))) =
       Some ProviderGetNetwork /\
     forall n' code, provider_getNetwork w' = Resolve n' ->
       provider_getCode w' (contractAddress K) = Resolve code ->
       outcome (getContractDebugInfo K w' (after r)) =
       Return {| debug_contractAddress := contractAddress K;
                 networkInfo := {| info_chainId := network_chainId n';
                                   info_name := network_name n' |};
                 contractCode := code;
                 isContractDeployed := negb (String.eqb code "0x") |}).
Proof.
  intros Hwin Heth Hs Hn Hfail r.
  assert (Hr : (outcome r = Throw (InvalidAddressError (contractAddress K)) \/
                outcome r =
                  Throw (ContractNotDeployedError (contractAddress K))) /\
               after r = with_provider_signer this eth s).
  { subst r. rewrite (connect_unfold K w this win eth Hwin Heth), Hs, Hn.
    destruct (isAddress w (contractAddress K)) eqn:Ha.
    - destruct Hfail as [Hfail | Hfail]; [discriminate|].
      rewrite Hfail. simpl. split; [right|]; reflexivity.
    - simpl. split; [left|]; reflexivity. }
  destruct Hr as (Ho & Hafter). rewrite Hafter.
  split; [exact Ho|]. split; [reflexivity|]. split; [reflexivity|].
  split; [intros H; exact H|]. split; [reflexivity|]. split; [reflexivity|].
  intros w'.
  rewrite getNetworkInfo_unfold, getWalletAddress_unfold,
    getContractDebugInfo_unfold. simpl.
  split; [|split].
  - split; [reflexivity|]. intros n' Hn'. rewrite Hn'. reflexivity.
  - split; [reflexivity|]. intros a Ha. rewrite Ha. reflexivity.
  - split.
    + destruct (provider_getNetwork w'); reflexivity.
    + intros n' code Hn' Hc'. rewrite Hn'. simpl. rewrite Hc'. reflexivity.
Qed.

Lemma queries_work_after_failed_validation_wrong_chain :
  isConnected (after (connect constants Sample.wrong_chain counterService)) =
    false /\
  outcome (getNetworkInfo Sample.wrong_chain
             (after (connect constants Sample.wrong_chain counterService))) =
    Return {| info_chainId := 1; info_name := "mainnet" |} /\
  outcome (getWalletAddress Sample.wrong_chain
             (after (connect constants Sample.wrong_chain counterService))) =
    Return "0x70997970C51812dc3A010C7d01b50e0d17dc79C8".
Proof.
  pose proof (queries_work_after_failed_validation constants
                Sample.wrong_chain counterService _ InjectedProvider
                Sample.user Sample.mainnet
                eq_refl eq_refl eq_refl eq_refl (or_intror eq_refl))
    as (_ & _ & _ & Hfalse & _ & _ & Hq).
  split; [exact (Hfalse eq_refl)|].
  destruct (Hq Sample.wrong_chain) as ((_ & Hnet) & (_ & Haddr) & _).
  split.
  - exact (Hnet Sample.mainnet eq_refl).
  - exact (Haddr _ eq_refl).
Defined.

(** * Further properties of the service *)

(** ** What each method amounts to *)

Lemma getCounter_unfold (w : World) (this : CounterContractService) :
  getCounter w this =
  match contract this with
  | None => failed_at_once NotConnectedError this
  | Some c =>
      {| outcome :=
           match contract_getCounter w c with
           | Resolve v => Return v
           | Reject e =>
               Throw (if instanceofError e then
                        if includes (message_of e) "BAD_DATA"
                        then StaleDeploymentError
                        else ReadFailedError (message_of e)
                      else ReadFailedError "알 수 없는 오류")
           end;
         after := this;
         trace := [ContractGetCounter c] |}
  end.
Proof.
  unfold getCounter, bind, this_contract, try_catch, await, when,
    failed_at_once; simpl.
  destruct (contract this) as [c|]; simpl; [|reflexivity].
  destruct (contract_getCounter w c) as [v|e]; simpl; [reflexivity|].
  destruct (instanceofError e); simpl; [|reflexivity].
  destruct (includes (message_of e) "BAD_DATA"); reflexivity.
Qed.

Lemma getOwner_unfold (w : World) (this : CounterContractService) :
  getOwner w this =
  match contract this with
  | None => failed_at_once NotConnectedError this
  | Some c =>
      {| outcome :=
           match contract_owner w c with
           | Resolve a => Return a
           | Reject e => Throw e
           end;
         after := this;
         trace := [ContractOwner c] |}
  end.
Proof.
  unfold getOwner, bind, this_contract, await, failed_at_once; simpl.
  destruct (contract this) as [c|]; simpl; [|reflexivity].
  destruct (contract_owner w c); reflexivity.
Qed.

Lemma switchToCorrectNetwork_no_wallet (K : Constants) (w : World)
    (this : CounterContractService) :
  (window w = None ->
   switchToCorrectNetwork K w this = failed_at_once ReferenceError_window this)
  /\
  (forall win, window w = Some win -> ethereum win = None ->
   switchToCorrectNetwork K w this =
   failed_at_once EnvironmentError_noWallet this).
Proof.
  unfold switchToCorrectNetwork. split.
  - intros H. rewrite H. reflexivity.
  - intros win H He. rewrite H, He. reflexivity.
Qed.

Lemma connect_no_window (K : Constants) (w : World)
    (this : CounterContractService) :
  (window w = None ->
   connect K w this = failed_at_once EnvironmentError_noBrowser this) /\
  (forall win, window w = Some win -> ethereum win = None ->
   connect K w this = failed_at_once EnvironmentError_noWallet this).
Proof.
  unfold connect. split.
  - intros H. rewrite H. reflexivity.
  - intros win H He. rewrite H, He. reflexivity.
Qed.

(** ** Substring search *)

Lemma startsWith_iff (s search : string) :
  startsWith s search = true <-> exists post, s = search ++ post.
Proof.
  revert s. induction search as [|c search IH]; intros s; simpl.
  - split; [intros _; exists s; reflexivity|reflexivity].
  - destruct s as [|d s].
    + split; [discriminate|intros (post & H); discriminate H].
    + rewrite andb_true_iff, Ascii.eqb_eq, IH. split.
      * intros (-> & post & ->). exists post. reflexivity.
      * intros (post & H). injection H as -> ->.
        split; [reflexivity|exists post; reflexivity].
Qed.

Lemma includes_iff (s search : string) :
  includes s search = true <-> exists pre post, s = pre ++ search ++ post.
Proof.
  induction s as [|d s IH].
  - simpl. rewrite orb_false_r, startsWith_iff. split.
    + intros (post & H). exists EmptyString, post. exact H.
    + intros (pre & post & H). destruct pre as [|p pre]; [|discriminate H].
      exists post. exact H.
  - cbn [includes]. rewrite orb_true_iff, startsWith_iff, IH. split.
    + intros [(post & H) | (pre & post & H)].
      * exists EmptyString, post. exact H.
      * exists (String d pre), post. simpl. rewrite H. reflexivity.
    + intros (pre & post & H). destruct pre as [|p pre].
      * left. exists post. exact H.
      * right. simpl in H. injection H as _ H. exists pre, post. exact H.
Qed.

Lemma includes_suffix (p m : string) : includes (p ++ m) m = true.
Proof.
  apply includes_iff. exists p, EmptyString.
  f_equal. induction m as [|c m IH]; simpl; [reflexivity|].
  f_equal. exact IH.
Qed.

(** ** connect, beyond its failures *)

(** X1. [connect] returns exactly when the host has a wallet, the signer
    and the network are obtained, the configured address is accepted by
    [ethers.isAddress] and the bytecode query resolves with something
    other than [0x]. *)
Theorem connect_returns_exactly_when_validated (K : Constants) (w : World)
    (this : CounterContractService) :
  outcome (connect K w this) = Return tt <->
  exists win eth s n code,
    window w = Some win /\ ethereum win = Some eth /\
    provider_getSigner w = Resolve s /\
    provider_getNetwork w = Resolve n /\
    isAddress w (contractAddress K) = true /\
    provider_getCode w (contractAddress K) = Resolve code /\
    code <> "0x".
Proof.
  destruct (environment_cases w) as [Hno | (win & eth & Hwin & Heth)].
  - destruct (connect_no_environment K w this Hno) as (_ & _ & e & Ho).
    rewrite Ho. split; [discriminate|].
    intros (win & eth & s & n & code & Hwin & Heth & _).
    destruct Hno as [Hno | (win' & Hwin' & Heth')]; congruence.
  - rewrite (connect_unfold K w this win eth Hwin Heth). split.
    + destruct (provider_getSigner w) as [s|e]; [|discriminate].
      destruct (provider_getNetwork w) as [n|e]; [|discriminate].
      destruct (isAddress w (contractAddress K)); [|discriminate].
      destruct (provider_getCode w (contractAddress K)) as [code|e];
        [|discriminate].
      destruct (String.eqb code "0x") eqn:Hcode; [discriminate|].
      intros _. exists win, eth, s, n, code.
      repeat split; try assumption.
      apply String.eqb_neq. exact Hcode.
    + intros (win' & eth' & s & n & code & _ & _ & Hs & Hn & Ha & Hc & Hne).
      rewrite Hs, Hn, Ha, Hc.
      apply String.eqb_neq in Hne. rewrite Hne. reflexivity.
Qed.

(** X2. When [connect] returns, the fields are the new provider, the
    signer just obtained and a contract handle for the configured address
    bound to that signer, whatever the fields were before; and [connect]
    performed the signer, network and bytecode queries, in this order,
    and nothing else. *)
Theorem connect_success_binds_fresh_handles (K : Constants) (w : World)
    (this : CounterContractService) :
  outcome (connect K w this) = Return tt ->
  exists eth s,
    provider_getSigner w = Resolve s /\
    after (connect K w this) =
      {| contract := Some {| target := contractAddress K;
                             runner := Some s |};
         provider := Some {| eip1193 := eth |};
         signer := Some s |} /\
    trace (connect K w this) =
      [ProviderGetSigner; ProviderGetNetwork;
       ProviderGetCode (contractAddress K)].
Proof.
  destruct (environment_cases w) as [Hno | (win & eth & Hwin & Heth)].
  - destruct (connect_no_environment K w this Hno) as (_ & _ & e & Ho).
    rewrite Ho. discriminate.
  - rewrite (connect_unfold K w this win eth Hwin Heth).
    destruct (provider_getSigner w) as [s|e]; [|discriminate].
    destruct (provider_getNetwork w) as [n|e]; [|discriminate].
    destruct (isAddress w (contractAddress K)); [|discriminate].
    destruct (provider_getCode w (contractAddress K)) as [code|e];
      [|discriminate].
    destruct (String.eqb code "0x"); [discriminate|].
    intros _. exists eth, s. repeat split.
Qed.

Lemma connect_success_binds_fresh_handles_reconnect :
  outcome (connect constants Sample.deployed
             (after (connect constants Sample.switched_account
                       Sample.connected))) = Return tt /\
  exists eth s,
    after (connect constants Sample.deployed
             (after (connect constants Sample.switched_account
                       Sample.connected))) =
    {| contract := Some {| target := contractAddress constants;
                           runner := Some s |};
       provider := Some {| eip1193 := eth |};
       signer := Some s |}.
Proof.
  split; [reflexivity|].
  destruct (connect_success_binds_fresh_handles constants Sample.deployed
              (after (connect constants Sample.switched_account
                        Sample.connected)) eq_refl)
    as (eth & s & _ & Hafter & _).
  exists eth, s. exact Hafter.
Defined.

(** X3. Whether [connect] returns or what it throws, and which calls it
    makes, depend on the world and the configuration only, not on the
    fields: a connected service that calls [connect] again goes through
    the same queries as a new one. *)
Theorem connect_verdict_ignores_fields (K : Constants) (w : World)
    (this this' : CounterContractService) :
  outcome (connect K w this) = outcome (connect K w this') /\
  trace (connect K w this) = trace (connect K w this').
Proof.
  destruct (environment_cases w) as [Hno | (win & eth & Hwin & Heth)].
  - destruct w as [win]; simpl in Hno. unfold connect; simpl.
    destruct Hno as [-> | (win' & -> & ->)]; split; reflexivity.
  - rewrite !(connect_unfold K w _ win eth Hwin Heth).
    destruct (provider_getSigner w) as [s|e]; [|split; reflexivity].
    destruct (provider_getNetwork w) as [n|e]; [|split; reflexivity].
    destruct (isAddress w (contractAddress K)); [|split; reflexivity].
    destruct (provider_getCode w (contractAddress K)) as [code|e];
      [|split; reflexivity].
    destruct (String.eqb code "0x"); split; reflexivity.
Qed.

(** X4. Calling [connect] again in an unchanged world repeats the first
    attempt: the same outcome, the same calls and the same fields
    afterwards. *)
Theorem connect_retry_in_same_world (K : Constants) (w : World)
    (this : CounterContractService) :
  connect K w (after (connect K w this)) = connect K w this.
Proof.
  destruct (environment_cases w) as [Hno | (win & eth & Hwin & Heth)].
  - destruct (connect_no_environment K w this Hno) as (Ha & _).
    rewrite Ha. reflexivity.
  - rewrite (connect_unfold K w (after _) win eth Hwin Heth).
    rewrite (connect_unfold K w this win eth Hwin Heth).
    unfold with_provider, with_provider_signer.
    destruct (provider_getSigner w) as [s|e]; [|reflexivity].
    destruct (provider_getNetwork w) as [n|e]; [|reflexivity].
    destruct (isAddress w (contractAddress K)); [|reflexivity].
    destruct (provider_getCode w (contractAddress K)) as [code|e];
      [|reflexivity].
    destruct (String.eqb code "0x"); reflexivity.
Qed.

(** X5. [connect] has no handler of its own: when the signer query, the
    network query or the bytecode query is rejected, [connect] throws the
    very value it was rejected with, and makes no further call. *)
Theorem connect_rethrows_rejections_unchanged (K : Constants) (w : World)
    (this : CounterContractService) (win : Window) (eth : Ethereum) :
  window w = Some win -> ethereum win = Some eth ->
  (forall e, provider_getSigner w = Reject e ->
     outcome (connect K w this) = Throw e /\
     trace (connect K w this) = [ProviderGetSigner]) /\
  (forall s e, provider_getSigner w = Resolve s ->
     provider_getNetwork w = Reject e ->
     outcome (connect K w this) = Throw e /\
     trace (connect K w this) = [ProviderGetSigner; ProviderGetNetwork]) /\
  (forall s n e, provider_getSigner w = Resolve s ->
     provider_getNetwork w = Resolve n ->
     isAddress w (contractAddress K) = true ->
     provider_getCode w (contractAddress K) = Reject e ->
     outcome (connect K w this) = Throw e /\
     trace (connect K w this) =
       [ProviderGetSigner; ProviderGetNetwork;
        ProviderGetCode (contractAddress K)]).
Proof.
  intros Hwin Heth.
  rewrite (connect_unfold K w this win eth Hwin Heth).
  split; [|split].
  - intros e Hs. rewrite Hs. split; reflexivity.
  - intros s e Hs Hn. rewrite Hs, Hn. split; reflexivity.
  - intros s n e Hs Hn Ha Hc. rewrite Hs, Hn, Ha, Hc. split; reflexivity.
Qed.

Lemma connect_rethrows_rejections_unchanged_locked :
  window Sample.locked = Sample.wallet /\
  outcome (connect constants Sample.locked counterService) =
    Throw Sample.user_rejected /\
  outcome (connect constants Sample.flaky counterService) =
    Throw Sample.timeout.
Proof.
  split; [reflexivity|].
  pose proof (connect_rethrows_rejections_unchanged constants Sample.locked
                counterService _ InjectedProvider eq_refl eq_refl)
    as (Hsigner & _).
  pose proof (connect_rethrows_rejections_unchanged constants Sample.flaky
                counterService _ InjectedProvider eq_refl eq_refl)
    as (_ & Hnetwork & _).
  split.
  - exact (proj1 (Hsigner _ eq_refl)).
  - exact (proj1 (Hnetwork Sample.user _ eq_refl eq_refl)).
Defined.

(** ** Sessions *)

(** Every call but [connect] gives back the fields it was given. *)
Lemma fields_after_other_calls (K : Constants) (w : World) (c : Call)
    (this : CounterContractService) :
  match c with
  | call_connect => True
  | _ => fields_after K w c this = this
  end.
Proof.
  destruct c; [exact I|..]; unfold fields_after.
  - rewrite getCounter_unfold. destruct (contract this); reflexivity.
  - change (incrementCounter w) with (mutate w incrementCounter_method).
    rewrite mutate_unfold. destruct (contract this) as [c|]; [|reflexivity].
    destruct (contract_send w c _) as [tx|]; [|reflexivity].
    destruct (tx_wait w tx); reflexivity.
  - change (decrementCounter w) with (mutate w decrementCounter_method).
    rewrite mutate_unfold. destruct (contract this) as [c|]; [|reflexivity].
    destruct (contract_send w c _) as [tx|]; [|reflexivity].
    destruct (tx_wait w tx); reflexivity.
  - change (resetCounter w) with (mutate w resetCounter_method).
    rewrite mutate_unfold. destruct (contract this) as [c|]; [|reflexivity].
    destruct (contract_send w c _) as [tx|]; [|reflexivity].
    destruct (tx_wait w tx); reflexivity.
  - rewrite getOwner_unfold. destruct (contract this); reflexivity.
  - rewrite getWalletAddress_unfold. destruct (signer this); reflexivity.
  - rewrite getNetworkInfo_unfold. destruct (provider this); reflexivity.
  - destruct (environment_cases w) as [[Hno | (win & Hwin & Heth)]
                                      | (win & eth & Hwin & Heth)].
    + rewrite (proj1 (switchToCorrectNetwork_no_wallet K w this) Hno).
      reflexivity.
    + rewrite (proj2 (switchToCorrectNetwork_no_wallet K w this)
                 win Hwin Heth).
      reflexivity.
    + rewrite (switchToCorrectNetwork_unfold K w this win eth Hwin Heth).
      destruct (ethereum_request w (wallet_switchEthereumChain K)) as [u|e];
        [reflexivity|].
      destruct (code_is e 4902); reflexivity.
  - rewrite getContractDebugInfo_unfold.
    destruct (provider this); [|reflexivity].
    destruct (provider_getNetwork w); reflexivity.
Qed.

(** X6. Only [connect] assigns fields: every other method leaves the
    three fields exactly as they were, whether it returns or throws. *)
Theorem only_connect_assigns_fields (K : Constants) (w : World) (c : Call)
    (this : CounterContractService) :
  c <> call_connect -> fields_after K w c this = this.
Proof.
  intros Hc. pose proof (fields_after_other_calls K w c this) as H.
  destruct c; [contradiction|exact H..].
Qed.

Lemma only_connect_assigns_fields_reverted_reset :
  call_resetCounter <> call_connect /\
  after (resetCounter Sample.reverting Sample.connected) = Sample.connected.
Proof.
  assert (H : call_resetCounter <> call_connect) by discriminate.
  split; [exact H|].
  exact (only_connect_assigns_fields constants Sample.reverting
           call_resetCounter Sample.connected H).
Defined.

(** One call never turns a set field back to [null]. *)
Lemma call_keeps_fields_set (K : Constants) (w : World) (c : Call)
    (this : CounterContractService) :
  (contract this <> None -> contract (fields_after K w c this) <> None) /\
  (provider this <> None -> provider (fields_after K w c this) <> None) /\
  (signer this <> None -> signer (fields_after K w c this) <> None).
Proof.
  pose proof (fields_after_other_calls K w c this) as Hother.
  destruct c; try (rewrite Hother; repeat split; intros H; exact H).
  clear Hother. unfold fields_after.
  destruct (environment_cases w) as [Hno | (win & eth & Hwin & Heth)].
  - destruct (connect_no_environment K w this Hno) as (Ha & _).
    rewrite Ha. repeat split; intros H; exact H.
  - rewrite (connect_unfold K w this win eth Hwin Heth).
    destruct (provider_getSigner w) as [s|e]; simpl;
      [|repeat split; try discriminate; intros H; exact H].
    destruct (provider_getNetwork w) as [n|e]; simpl;
      [|repeat split; try discriminate; intros H; exact H].
    destruct (isAddress w (contractAddress K)); simpl;
      [|repeat split; try discriminate; intros H; exact H].
    destruct (provider_getCode w (contractAddress K)) as [code|e]; simpl;
      [|repeat split; try discriminate; intros H; exact H].
    destruct (String.eqb code "0x"); simpl;
      repeat split; try discriminate; intros H; exact H.
Qed.

(** X7. The class has no way back: over any sequence of calls, in
    whatever worlds, a provider, a signer or a contract handle that is set
    stays set.  In particular once [isConnected()] is true it is true for
    the rest of the session, also after a [connect] that fails. *)
Theorem session_never_clears_fields (K : Constants)
    (calls : list (Call * World)) (this : CounterContractService) :
  (isConnected this = true -> isConnected (session K calls this) = true) /\
  (provider this <> None -> provider (session K calls this) <> None) /\
  (signer this <> None -> signer (session K calls this) <> None).
Proof.
  revert this. induction calls as [|[c w] calls IH]; intros this.
  - simpl. repeat split; intros H; exact H.
  - simpl. destruct (IH (fields_after K w c this)) as (IHc & IHp & IHs).
    destruct (call_keeps_fields_set K w c this) as (Hc & Hp & Hs).
    rewrite !isConnected_true in *.
    repeat split; intros H; auto.
Qed.

Lemma session_never_clears_fields_failed_reconnect :
  isConnected Sample.connected = true /\
  isConnected
    (session constants
       [(call_connect, Sample.wrong_chain);
        (call_getCounter, Sample.stale);
        (call_connect, Sample.locked);
        (call_switchToCorrectNetwork, Sample.rejecting);
        (call_connect, Sample.server)]
       Sample.connected) = true.
Proof.
  split; [reflexivity|].
  exact (proj1 (session_never_clears_fields constants _ Sample.connected)
           eq_refl).
Defined.

Lemma call_keeps_coherent (K : Constants) (w : World) (c : Call)
    (this : CounterContractService) :
  coherent K this -> coherent K (fields_after K w c this).
Proof.
  intros Hcoh. pose proof (fields_after_other_calls K w c this) as Hother.
  destruct c; try (rewrite Hother; exact Hcoh).
  clear Hother. unfold fields_after.
  destruct (environment_cases w) as [Hno | (win & eth & Hwin & Heth)].
  - destruct (connect_no_environment K w this Hno) as (Ha & _).
    rewrite Ha. exact Hcoh.
  - destruct Hcoh as (Hcs & Hsp & Hct).
    assert (Hstep : forall s,
               coherent K (with_provider_signer this eth s)).
    { intros s. unfold coherent, with_provider_signer; simpl.
      repeat split; try discriminate; apply (Hct c); assumption. }
    rewrite (connect_unfold K w this win eth Hwin Heth).
    destruct (provider_getSigner w) as [s|e]; simpl.
    2:{ unfold coherent, with_provider; simpl.
        repeat split; try discriminate; try assumption;
          apply (Hct c); assumption. }
    destruct (provider_getNetwork w) as [n|e]; simpl; [|apply Hstep].
    destruct (isAddress w (contractAddress K)); simpl; [|apply Hstep].
    destruct (provider_getCode w (contractAddress K)) as [code|e]; simpl;
      [|apply Hstep].
    destruct (String.eqb code "0x"); simpl; [apply Hstep|].
    unfold coherent; simpl.
    split; [discriminate|]. split; [discriminate|].
    intros c Hc. injection Hc as <-. simpl.
    split; [reflexivity|discriminate].
Qed.

Lemma new_service_coherent (K : Constants) : coherent K counterService.
Proof.
  unfold coherent, counterService; simpl.
  repeat split; try contradiction; discriminate.
Qed.

Lemma session_keeps_coherent (K : Constants) (calls : list (Call * World)) :
  forall this, coherent K this -> coherent K (session K calls this).
Proof.
  induction calls as [|[c w] calls IH]; intros this H; simpl.
  - exact H.
  - apply IH. apply call_keeps_coherent. exact H.
Qed.

(** X8. However a new service is used, its fields stay coherent: a
    contract handle is never present without a signer, nor a signer
    without a provider, and a contract handle always targets the
    configured address and was bound to a signer.  So on every service
    [isConnected()] is true exactly when all three fields are set. *)
Theorem session_fields_coherent (K : Constants)
    (calls : list (Call * World)) :
  coherent K (session K calls counterService) /\
  (isConnected (session K calls counterService) = true <->
   fully_present (session K calls counterService)).
Proof.
  pose proof (session_keeps_coherent K calls counterService
                (new_service_coherent K)) as Hcoh.
  split; [exact Hcoh|].
  destruct Hcoh as (Hcs & Hsp & _).
  rewrite isConnected_true. unfold fully_present. split.
  - intros Hc. split; [exact Hc|]. split; auto.
  - intros (Hc & _). exact Hc.
Qed.

(** ** Reading *)

(** X9. Whatever [getCounter] throws is an [Error] made by the class: the
    not-connected error, the stale-deployment error or a read-failed
    error.  The value the read call was rejected with never escapes, and
    its [code] is not carried over. *)
Theorem getCounter_throws_only_its_own_errors (w : World)
    (this : CounterContractService) (e : JsValue) :
  outcome (getCounter w this) = Throw e ->
  (e = NotConnectedError \/ e = StaleDeploymentError \/
   exists m, e = ReadFailedError m) /\
  instanceofError e = true /\ code_of e = None.
Proof.
  rewrite getCounter_unfold.
  destruct (contract this) as [c|]; simpl.
  - destruct (contract_getCounter w c) as [v|e']; [discriminate|].
    intros H. injection H as <-.
    destruct (instanceofError e').
    + destruct (includes (message_of e') "BAD_DATA").
      * split; [right; left; reflexivity|split; reflexivity].
      * split; [right; right; eexists; reflexivity|split; reflexivity].
    + split; [right; right; eexists; reflexivity|split; reflexivity].
  - intros H. injection H as <-.
    split; [left; reflexivity|split; reflexivity].
Qed.

Lemma getCounter_throws_only_its_own_errors_timeout :
  outcome (getCounter Sample.flaky Sample.connected) =
    Throw (ReadFailedError "request timeout") /\
  code_of (ReadFailedError "request timeout") = None.
Proof.
  split; [reflexivity|].
  exact (proj2 (proj2 (getCounter_throws_only_its_own_errors Sample.flaky
                         Sample.connected _ eq_refl))).
Defined.

Lemma ReadFailedError_not_stale (m : string) :
  ReadFailedError m <> StaleDeploymentError.
Proof.
  unfold ReadFailedError, StaleDeploymentError, Error. simpl.
  intros H. discriminate H.
Qed.

(** X10. On a connected service [getCounter] throws the stale-deployment
    error exactly when the read call was rejected with an [Error] whose
    message has [BAD_DATA] somewhere inside it; the search is for these
    eight characters as they are, anywhere in the message. *)
Theorem getCounter_stale_exactly_on_bad_data (w : World)
    (this : CounterContractService) (c : Contract) :
  contract this = Some c ->
  (outcome (getCounter w this) = Throw StaleDeploymentError <->
   exists pre post code,
     contract_getCounter w c =
     Reject (JsError (pre ++ "BAD_DATA" ++ post) code)).
Proof.
  intros Hc. rewrite getCounter_unfold, Hc. split.
  - destruct (contract_getCounter w c) as [v|e]; [discriminate|].
    destruct e as [m code|code|]; simpl.
    + destruct (includes m "BAD_DATA") eqn:Hin.
      * intros _. apply includes_iff in Hin. destruct Hin as (pre & post & ->).
        exists pre, post, code. reflexivity.
      * intros H. injection H as H. discriminate H.
    + intros H. injection H as H. discriminate H.
    + intros H. injection H as H. discriminate H.
  - intros (pre & post & code & Hr). rewrite Hr.
    assert (Hin : includes (pre ++ "BAD_DATA" ++ post) "BAD_DATA" = true).
    { apply includes_iff. exists pre, post. reflexivity. }
    cbn [outcome instanceofError message_of]. rewrite Hin. reflexivity.
Qed.

Lemma getCounter_stale_exactly_on_bad_data_sample :
  contract Sample.connected <> None /\
  outcome (getCounter Sample.stale Sample.connected) =
    Throw StaleDeploymentError /\
  outcome (getCounter Sample.flaky Sample.connected) <>
    Throw StaleDeploymentError.
Proof.
  split; [discriminate|].
  pose proof (getCounter_stale_exactly_on_bad_data Sample.stale
                Sample.connected _ eq_refl) as Hstale.
  pose proof (getCounter_stale_exactly_on_bad_data Sample.flaky
                Sample.connected _ eq_refl) as Hflaky.
  split.
  - apply Hstale.
    exists "could not decode result data (value=0x, code=", ")", None.
    reflexivity.
  - intros H. apply Hflaky in H. destruct H as (pre & post & code & H).
    injection H as H _.
    assert (Hin : includes "request timeout" "BAD_DATA" = true).
    { apply includes_iff. exists pre, post. exact H. }
    discriminate Hin.
Defined.

(** X11. [getOwner], [getWalletAddress], [getNetworkInfo] and
    [getContractDebugInfo] have no handler: once past their guard, a
    rejected call makes them throw the very value it was rejected with.
    [getContractDebugInfo] stops at a rejected network query without
    asking for the bytecode. *)
Theorem queries_rethrow_rejections_unchanged (K : Constants) (w : World)
    (this : CounterContractService) (e : JsValue) :
  (forall c, contract this = Some c -> contract_owner w c = Reject e ->
     outcome (getOwner w this) = Throw e) /\
  (forall s, signer this = Some s -> signer_getAddress w s = Reject e ->
     outcome (getWalletAddress w this) = Throw e) /\
  (provider this <> None -> provider_getNetwork w = Reject e ->
     outcome (getNetworkInfo w this) = Throw e /\
     outcome (getContractDebugInfo K w this) = Throw e /\
     trace (getContractDebugInfo K w this) = [ProviderGetNetwork]) /\
  (forall n, provider this <> None -> provider_getNetwork w = Resolve n ->
     provider_getCode w (contractAddress K) = Reject e ->
     outcome (getContractDebugInfo K w this) = Throw e).
Proof.
  rewrite getOwner_unfold, getWalletAddress_unfold, getNetworkInfo_unfold,
    getContractDebugInfo_unfold.
  split; [|split; [|split]].
  - intros c Hc Hr. rewrite Hc. simpl. rewrite Hr. reflexivity.
  - intros s Hs Hr. rewrite Hs. simpl. rewrite Hr. reflexivity.
  - intros Hp Hr. destruct (provider this); [|contradiction].
    rewrite Hr. repeat split.
  - intros n Hp Hn Hc. destruct (provider this); [|contradiction].
    rewrite Hn. simpl. rewrite Hc. reflexivity.
Qed.

Lemma queries_rethrow_rejections_unchanged_flaky :
  outcome (getOwner Sample.flaky Sample.connected) = Throw Sample.timeout /\
  outcome (getWalletAddress Sample.flaky Sample.connected) =
    Throw Sample.timeout /\
  trace (getContractDebugInfo constants Sample.flaky Sample.connected) =
    [ProviderGetNetwork].
Proof.
  pose proof (queries_rethrow_rejections_unchanged constants Sample.flaky
                Sample.connected Sample.timeout)
    as (Howner & Hwallet & Hnet & _).
  split; [exact (Howner _ eq_refl eq_refl)|].
  split; [exact (Hwallet _ eq_refl eq_refl)|].
  assert (Hp : provider Sample.connected <> None) by discriminate.
  exact (proj2 (proj2 (Hnet Hp eq_refl))).
Defined.

(** X12. [getContractDebugInfo] needs the provider only, and an address
    without code is a result, not an error: when both queries resolve it
    returns the configured address, the network, the raw bytecode and a
    flag that is false exactly when the bytecode is [0x], and it
    performed just these two queries. *)
Theorem getContractDebugInfo_reports_deployment (K : Constants) (w : World)
    (this : CounterContractService) (n : Network) (code : string) :
  provider this <> None ->
  provider_getNetwork w = Resolve n ->
  provider_getCode w (contractAddress K) = Resolve code ->
  exists info,
    getContractDebugInfo K w this =
      {| outcome := Return info; after := this;
         trace := [ProviderGetNetwork;
                   ProviderGetCode (contractAddress K)] |} /\
    debug_contractAddress info = contractAddress K /\
    networkInfo info = {| info_chainId := network_chainId n;
                          info_name := network_name n |} /\
    contractCode info = code /\
    (isContractDeployed info = false <-> code = "0x").
Proof.
  intros Hp Hn Hc. rewrite getContractDebugInfo_unfold.
  destruct (provider this); [|contradiction].
  rewrite Hn, Hc. eexists. split; [reflexivity|]. simpl.
  repeat split.
  - rewrite negb_false_iff. apply String.eqb_eq.
  - intros ->. reflexivity.
Qed.

Lemma getContractDebugInfo_reports_deployment_wrong_chain :
  isConnected (after (connect constants Sample.wrong_chain counterService)) =
    false /\
  exists info,
    outcome (getContractDebugInfo constants Sample.wrong_chain
               (after (connect constants Sample.wrong_chain counterService))) =
      Return info /\
    isContractDeployed info = false.
Proof.
  split; [reflexivity|].
  assert (Hp : provider (after (connect constants Sample.wrong_chain
                                  counterService)) <> None) by discriminate.
  destruct (getContractDebugInfo_reports_deployment constants
              Sample.wrong_chain _ Sample.mainnet "0x" Hp eq_refl eq_refl)
    as (info & Hrun & _ & _ & _ & Hflag).
  exists info. split.
  - exact (f_equal outcome Hrun).
  - apply Hflag. reflexivity.
Defined.

(** X13. The diagnostic agrees with [connect].  In a world where the
    wallet hands out signer and network, the address is accepted and the
    bytecode query resolves, [connect] returns exactly when
    [getContractDebugInfo], called next in the same world, reports the
    contract as deployed. *)
Theorem debug_info_agrees_with_connect (K : Constants) (w : World)
    (this : CounterContractService) (win : Window) (eth : Ethereum)
    (s : JsonRpcSigner) (n : Network) (code : string) :
  window w = Some win -> ethereum win = Some eth ->
  provider_getSigner w = Resolve s ->
  provider_getNetwork w = Resolve n ->
  isAddress w (contractAddress K) = true ->
  provider_getCode w (contractAddress K) = Resolve code ->
  exists info,
    outcome (getContractDebugInfo K w (after (connect K w this))) =
      Return info /\
    (outcome (connect K w this) = Return tt <->
     isContractDeployed info = true).
Proof.
  intros Hwin Heth Hs Hn Ha Hc.
  rewrite getContractDebugInfo_unfold.
  rewrite (connect_unfold K w this win eth Hwin Heth), Hs, Hn, Ha, Hc.
  destruct (String.eqb code "0x"); simpl;
    eexists; (split; [reflexivity|]); simpl; split; congruence.
Qed.

Lemma debug_info_agrees_with_connect_both_chains :
  (exists info,
     outcome (getContractDebugInfo constants Sample.deployed
                (after (connect constants Sample.deployed counterService))) =
       Return info /\ isContractDeployed info = true) /\
  outcome (connect constants Sample.wrong_chain counterService) <> Return tt.
Proof.
  destruct (debug_info_agrees_with_connect constants Sample.deployed
              counterService _ InjectedProvider Sample.user Sample.sepolia
              "0x6080604052" eq_refl eq_refl eq_refl eq_refl eq_refl eq_refl)
    as (info & Hinfo & Hiff).
  destruct (debug_info_agrees_with_connect constants Sample.wrong_chain
              counterService _ InjectedProvider Sample.user Sample.mainnet
              "0x" eq_refl eq_refl eq_refl eq_refl eq_refl eq_refl)
    as (info' & Hinfo' & Hiff').
  split.
  - exists info. split; [exact Hinfo|]. apply Hiff. reflexivity.
  - intros H. apply Hiff' in H.
    injection Hinfo' as <-. discriminate H.
Defined.

(** ** Without a wallet, and the network switch *)

(** X14. Where the host has no wallet, neither [connect] nor
    [switchToCorrectNetwork] makes a call or touches a field.  In a
    browser without the extension both throw the same not-installed error;
    on a host without [window], [connect] throws its browser-only error,
    while [switchToCorrectNetwork], which reads [window.ethereum]
    unguarded, ends in the engine's reference error. *)
Theorem no_wallet_stops_connect_and_switch (K : Constants) (w : World)
    (this : CounterContractService) :
  (forall win, window w = Some win -> ethereum win = None ->
     connect K w this = failed_at_once EnvironmentError_noWallet this /\
     switchToCorrectNetwork K w this =
       failed_at_once EnvironmentError_noWallet this) /\
  (window w = None ->
     connect K w this = failed_at_once EnvironmentError_noBrowser this /\
     switchToCorrectNetwork K w this =
       failed_at_once ReferenceError_window this).
Proof.
  destruct (connect_no_window K w this) as (Hc0 & Hc1).
  destruct (switchToCorrectNetwork_no_wallet K w this) as (Hs0 & Hs1).
  split.
  - intros win Hwin Heth. split; [apply (Hc1 win)|apply (Hs1 win)]; assumption.
  - intros Hwin. split; [apply Hc0|apply Hs0]; assumption.
Qed.

Lemma no_wallet_stops_connect_and_switch_samples :
  trace (connect constants Sample.no_extension counterService) = [] /\
  outcome (switchToCorrectNetwork constants Sample.no_extension
             counterService) = Throw EnvironmentError_noWallet /\
  outcome (switchToCorrectNetwork constants Sample.server counterService) =
    Throw ReferenceError_window.
Proof.
  pose proof (no_wallet_stops_connect_and_switch constants
                Sample.no_extension counterService) as (Hext & _).
  pose proof (no_wallet_stops_connect_and_switch constants Sample.server
                counterService) as (_ & Hserver).
  destruct (Hext _ eq_refl eq_refl) as (Hc & Hs).
  split; [exact (f_equal trace Hc)|].
  split; [exact (f_equal outcome Hs)|].
  exact (f_equal outcome (proj2 (Hserver eq_refl))).
Defined.

(** X15. With a wallet present, [switchToCorrectNetwork] returns exactly
    when the switch request resolves, or is rejected with code 4902 and
    the request that adds the chain resolves; after adding the chain it
    does not ask for the switch again.  It never sends more than two
    requests, and it does not look at the fields: it runs the same on a
    new service and on a connected one. *)
Theorem switch_returns_exactly_when_accepted (K : Constants) (w : World)
    (this : CounterContractService) (win : Window) (eth : Ethereum) :
  window w = Some win -> ethereum win = Some eth ->
  (outcome (switchToCorrectNetwork K w this) = Return tt <->
   ethereum_request w (wallet_switchEthereumChain K) = Resolve tt \/
   exists e,
     ethereum_request w (wallet_switchEthereumChain K) = Reject e /\
     code_of e = Some 4902%Z /\
     ethereum_request w (wallet_addEthereumChain K) = Resolve tt) /\
  length (trace (switchToCorrectNetwork K w this)) <= 2 /\
  (forall this',
     outcome (switchToCorrectNetwork K w this') =
       outcome (switchToCorrectNetwork K w this) /\
     trace (switchToCorrectNetwork K w this') =
       trace (switchToCorrectNetwork K w this)).
Proof.
  intros Hwin Heth. split; [|split].
  - rewrite (switchToCorrectNetwork_unfold K w this win eth Hwin Heth).
    destruct (ethereum_request w (wallet_switchEthereumChain K))
      as [[]|e]; simpl.
    + split; [intros _; left; reflexivity|reflexivity].
    + destruct (code_is e 4902) eqn:Hcode; simpl.
      * destruct (ethereum_request w (wallet_addEthereumChain K))
          as [[]|e']; simpl.
        -- split; [|reflexivity]. intros _. right. exists e.
           apply code_is_4902 in Hcode. repeat split. exact Hcode.
        -- split; [discriminate|].
           intros [H | (e0 & _ & _ & H)]; discriminate H.
      * split; [discriminate|].
        intros [H | (e0 & H & Hc & _)]; [discriminate H|].
        injection H as <-. apply code_is_4902 in Hc. congruence.
  - rewrite (switchToCorrectNetwork_unfold K w this win eth Hwin Heth).
    destruct (ethereum_request w (wallet_switchEthereumChain K)) as [u|e];
      simpl; [lia|].
    destruct (code_is e 4902); simpl; lia.
  - intros this'.
    rewrite !(switchToCorrectNetwork_unfold K w _ win eth Hwin Heth).
    destruct (ethereum_request w (wallet_switchEthereumChain K)) as [u|e];
      [split; reflexivity|].
    destruct (code_is e 4902); split; reflexivity.
Qed.

Lemma switch_returns_exactly_when_accepted_samples :
  outcome (switchToCorrectNetwork constants Sample.unregistered
             counterService) = Return tt /\
  outcome (switchToCorrectNetwork constants Sample.unregistered_declined
             Sample.connected) <> Return tt.
Proof.
  pose proof (switch_returns_exactly_when_accepted constants
                Sample.unregistered counterService _ InjectedProvider
                eq_refl eq_refl) as (Hyes & _).
  pose proof (switch_returns_exactly_when_accepted constants
                Sample.unregistered_declined Sample.connected _
                InjectedProvider eq_refl eq_refl) as (Hno & _).
  split.
  - apply Hyes. right. exists Sample.unknown_chain. repeat split.
  - intros H. apply Hno in H.
    destruct H as [H | (e & _ & _ & H)]; discriminate H.
Defined.

(** ** States in between *)

(** X16. When the wallet refuses to hand out a signer to a service that
    has none, [connect] leaves a service with a provider and no signer:
    from then on [getNetworkInfo] and [getContractDebugInfo] query the
    provider, while [getWalletAddress] fails at once with its own
    not-connected error. *)
Theorem refused_signer_leaves_provider_only (K : Constants) (w : World)
    (this : CounterContractService) (win : Window) (eth : Ethereum)
    (e : JsValue) :
  window w = Some win -> ethereum win = Some eth ->
  provider_getSigner w = Reject e ->
  signer this = None ->
  let this' := after (connect K w this) in
  provider this' = Some {| eip1193 := eth |} /\
  signer this' = None /\
  contract this' = contract this /\
  forall w' : World,
    getWalletAddress w' this' = failed_at_once NotConnectedError_signer this' /\
    trace (getNetworkInfo w' this') = [ProviderGetNetwork] /\
    hd_error (trace (getContractDebugInfo K w' this')) =
      Some ProviderGetNetwork.
Proof.
  intros Hwin Heth Hs Hnone this'. subst this'.
  rewrite (connect_unfold K w this win eth Hwin Heth), Hs. simpl.
  split; [reflexivity|]. split; [exact Hnone|]. split; [reflexivity|].
  intros w'.
  rewrite getWalletAddress_unfold, getNetworkInfo_unfold,
    getContractDebugInfo_unfold. simpl. rewrite Hnone.
  split; [reflexivity|]. split; [reflexivity|].
  destruct (provider_getNetwork w'); reflexivity.
Qed.

Lemma refused_signer_leaves_provider_only_locked :
  signer counterService = None /\
  outcome (getWalletAddress Sample.deployed
             (after (connect constants Sample.locked counterService))) =
    Throw NotConnectedError_signer /\
  trace (getNetworkInfo Sample.deployed
           (after (connect constants Sample.locked counterService))) =
    [ProviderGetNetwork].
Proof.
  split; [reflexivity|].
  pose proof (refused_signer_leaves_provider_only constants Sample.locked
                counterService _ InjectedProvider Sample.user_rejected
                eq_refl eq_refl eq_refl eq_refl) as (_ & _ & _ & Hq).
  destruct (Hq Sample.deployed) as (Hwallet & Hnet & _).
  split; [exact (f_equal outcome Hwallet)|exact Hnet].
Defined.

(** X17. A failed reconnect can split the session.  When a connected
    service calls [connect] and the attempt obtains a signer but then
    fails, the signer field is the new signer while the contract handle is
    still the old one: afterwards [getWalletAddress] asks the new signer,
    and the mutating methods still send through the old handle. *)
Theorem failed_reconnect_keeps_old_handle_with_new_signer (K : Constants)
    (w : World) (this : CounterContractService) (win : Window)
    (eth : Ethereum) (c : Contract) (s' : JsonRpcSigner) :
  window w = Some win -> ethereum win = Some eth ->
  contract this = Some c ->
  provider_getSigner w = Resolve s' ->
  outcome (connect K w this) <> Return tt ->
  let this' := after (connect K w this) in
  contract this' = Some c /\
  signer this' = Some s' /\
  forall (w' : World) (m : Mutator),
    trace (getWalletAddress w' this') = [SignerGetAddress s'] /\
    hd_error (trace (mutate w' m this')) = Some (ContractSend c m).
Proof.
  intros Hwin Heth Hc Hs Hfail this'. subst this'.
  assert (Hafter : after (connect K w this) =
                   with_provider_signer this eth s').
  { revert Hfail.
    rewrite (connect_unfold K w this win eth Hwin Heth), Hs.
    destruct (provider_getNetwork w) as [n|e]; [|reflexivity].
    destruct (isAddress w (contractAddress K)); [|reflexivity].
    destruct (provider_getCode w (contractAddress K)) as [code|e];
      [|reflexivity].
    destruct (String.eqb code "0x"); [reflexivity|].
    intros Hfail. exfalso. apply Hfail. reflexivity. }
  rewrite Hafter. simpl.
  split; [exact Hc|]. split; [reflexivity|].
  intros w' m.
  rewrite getWalletAddress_unfold, mutate_unfold. simpl. rewrite Hc.
  split; [reflexivity|].
  destruct (contract_send w' c m) as [tx|e]; [|reflexivity].
  destruct (tx_wait w' tx); reflexivity.
Qed.

Lemma failed_reconnect_keeps_old_handle_with_new_signer_switched :
  runner {| target := contractAddress constants;
            runner := Some Sample.user |} <> Some Sample.other_user /\
  signer (after (connect constants Sample.switched_account
                   Sample.connected)) = Some Sample.other_user /\
  contract (after (connect constants Sample.switched_account
                     Sample.connected)) =
    Some {| target := contractAddress constants;
            runner := Some Sample.user |}.
Proof.
  split; [discriminate|].
  assert (Hfail : outcome (connect constants Sample.switched_account
                             Sample.connected) <> Return tt)
    by discriminate.
  pose proof (failed_reconnect_keeps_old_handle_with_new_signer constants
                Sample.switched_account Sample.connected _ InjectedProvider
                _ Sample.other_user eq_refl eq_refl eq_refl eq_refl Hfail)
    as (Hcontract & Hsigner & _).
  split; [exact Hsigner|exact Hcontract].
Defined.

(** ** The chain id sent to the wallet *)

Lemma hexDigit_nonzero (d : N) :
  (0 < d < 16)%N -> hexDigit d <> "0"%char.
Proof.
  intros H.
  assert (Hd : In d [1; 2; 3; 4; 5; 6; 7; 8; 9; 10; 11; 12; 13; 14; 15]%N).
  { simpl. lia. }
  simpl in Hd.
  repeat (destruct Hd as [<- | Hd]; [discriminate|]).
  contradiction.
Qed.

Lemma toString16_from_leading_digit (fuel : nat) :
  forall (n : N) (acc : string),
    (0 < n < 16 ^ N.of_nat (S fuel))%N ->
    exists c rest,
      toString16_from (S fuel) n acc = String c rest /\ c <> "0"%char.
Proof.
  induction fuel as [|fuel IH]; intros n acc Hn.
  - change (16 ^ N.of_nat 1)%N with 16%N in Hn.
    cbn [toString16_from].
    destruct (n <? 16)%N eqn:Hlt; [|apply N.ltb_ge in Hlt; lia].
    exists (hexDigit (n mod 16)), acc. split; [reflexivity|].
    rewrite N.mod_small by lia. apply hexDigit_nonzero. lia.
  - cbn [toString16_from].
    destruct (n <? 16)%N eqn:Hlt.
    + apply N.ltb_lt in Hlt.
      exists (hexDigit (n mod 16)), acc. split; [reflexivity|].
      rewrite N.mod_small by lia. apply hexDigit_nonzero. lia.
    + apply N.ltb_ge in Hlt. apply IH. split.
      * apply N.div_str_pos. lia.
      * apply N.Div0.div_lt_upper_bound.
        replace (N.of_nat (S (S fuel))) with (N.succ (N.of_nat (S fuel)))
          in Hn by lia.
        rewrite N.pow_succ_r' in Hn. lia.
Qed.

Lemma toString16_fuel (n : N) :
  (n < 16 ^ N.of_nat (S (N.to_nat (N.size n))))%N.
Proof.
  pose proof (N.size_gt n) as Hs.
  apply N.lt_le_trans with (1 := Hs).
  replace (N.of_nat (S (N.to_nat (N.size n)))) with (N.succ (N.size n))
    by lia.
  apply N.le_trans with (16 ^ N.size n)%N.
  - apply N.pow_le_mono_l. lia.
  - apply N.pow_le_mono_r; lia.
Qed.

(** X18. The chain id that [switchToCorrectNetwork] sends is canonical:
    [0x] followed by at least one hexadecimal digit, without a leading
    zero unless the chain id is zero, and two configurations send the
    same switch request only if their chain ids are equal. *)
Theorem chain_id_parameter_is_canonical (K : Constants) :
  (exists digit rest,
     wallet_switchEthereumChain K =
       {| method := "wallet_switchEthereumChain";
          params := [SwitchChainParam ("0x" ++ String digit rest)] |} /\
     parseHex (String digit rest) = Some (chainId (CURRENT_NETWORK K)) /\
     (digit = "0"%char -> chainId (CURRENT_NETWORK K) = 0%N)) /\
  (forall K', wallet_switchEthereumChain K = wallet_switchEthereumChain K' ->
     chainId (CURRENT_NETWORK K) = chainId (CURRENT_NETWORK K')).
Proof.
  split.
  - unfold wallet_switchEthereumChain.
    pose proof (parseHex_toString16 (chainId (CURRENT_NETWORK K))) as Hparse.
    destruct (N.eq_dec (chainId (CURRENT_NETWORK K)) 0) as [H0 | Hpos].
    + rewrite H0 in *. exists "0"%char, EmptyString.
      split; [reflexivity|]. split; [exact Hparse|]. reflexivity.
    + destruct (toString16_from_leading_digit
                  (N.to_nat (N.size (chainId (CURRENT_NETWORK K))))
                  (chainId (CURRENT_NETWORK K)) EmptyString)
        as (c & rest & Heq & Hc).
      { split; [lia|apply toString16_fuel]. }
      fold (toString16 (chainId (CURRENT_NETWORK K))) in Heq.
      rewrite Heq in *. exists c, rest.
      split; [reflexivity|]. split; [exact Hparse|].
      intros ->. contradiction.
  - intros K' H. unfold wallet_switchEthereumChain in H.
    injection H as H.
    assert (Hp : parseHex (toString16 (chainId (CURRENT_NETWORK K))) =
                 parseHex (toString16 (chainId (CURRENT_NETWORK K'))))
      by (rewrite H; reflexivity).
    rewrite !parseHex_toString16 in Hp. injection Hp as Hp. exact Hp.
Qed.

(** ** What a call asks of the outside *)

(** X19. No method repeats or retries a call: whatever the world answers,
    one method call performs at most three interactions, all different
    ([connect] at most its three queries, every other method at most
    two). *)
Theorem no_call_is_repeated (K : Constants) (w : World) (c : Call)
    (this : CounterContractService) :
  NoDup (interactions_of K w c this) /\
  length (interactions_of K w c this) <= 3 /\
  (c <> call_connect -> length (interactions_of K w c this) <= 2).
Proof.
  assert (H0 : NoDup (@nil Interaction)) by constructor.
  assert (H1 : forall i : Interaction, NoDup [i]).
  { intros i. constructor; [intros []|constructor]. }
  assert (H2 : forall i j : Interaction, i <> j -> NoDup [i; j]).
  { intros i j Hij. constructor; [|apply H1].
    intros [H | []]. apply Hij. symmetry. exact H. }
  destruct c; unfold interactions_of.
  - destruct (environment_cases w) as [Hno | (win & eth & Hwin & Heth)].
    + destruct (connect_no_environment K w this Hno) as (_ & Ht & _).
      rewrite Ht. simpl. repeat split; [exact H0|lia|lia].
    + rewrite (connect_unfold K w this win eth Hwin Heth).
      assert (H3 : NoDup [ProviderGetSigner; ProviderGetNetwork;
                          ProviderGetCode (contractAddress K)]).
      { constructor; [|apply H2; discriminate].
        intros [H | [H | []]]; discriminate H. }
      destruct (provider_getSigner w) as [s|e]; simpl.
      2:{ repeat split; [apply H1|lia|contradiction]. }
      destruct (provider_getNetwork w) as [n|e]; simpl.
      2:{ repeat split; [apply H2; discriminate|lia|contradiction]. }
      destruct (isAddress w (contractAddress K)); simpl.
      2:{ repeat split; [apply H2; discriminate|lia|contradiction]. }
      destruct (provider_getCode w (contractAddress K)) as [code|e]; simpl.
      2:{ repeat split; [exact H3|lia|contradiction]. }
      destruct (String.eqb code "0x"); simpl;
        repeat split; try exact H3; try lia; contradiction.
  - rewrite getCounter_unfold.
    destruct (contract this); simpl; repeat split; auto; lia.
  - change (incrementCounter w) with (mutate w incrementCounter_method).
    rewrite mutate_unfold. destruct (contract this) as [c|]; simpl;
      [|repeat split; auto; lia].
    destruct (contract_send w c _) as [tx|]; simpl;
      [|repeat split; auto; lia].
    destruct (tx_wait w tx); simpl;
      repeat split; try lia; apply H2; discriminate.
  - change (decrementCounter w) with (mutate w decrementCounter_method).
    rewrite mutate_unfold. destruct (contract this) as [c|]; simpl;
      [|repeat split; auto; lia].
    destruct (contract_send w c _) as [tx|]; simpl;
      [|repeat split; auto; lia].
    destruct (tx_wait w tx); simpl;
      repeat split; try lia; apply H2; discriminate.
  - change (resetCounter w) with (mutate w resetCounter_method).
    rewrite mutate_unfold. destruct (contract this) as [c|]; simpl;
      [|repeat split; auto; lia].
    destruct (contract_send w c _) as [tx|]; simpl;
      [|repeat split; auto; lia].
    destruct (tx_wait w tx); simpl;
      repeat split; try lia; apply H2; discriminate.
  - rewrite getOwner_unfold.
    destruct (contract this); simpl; repeat split; auto; lia.
  - rewrite getWalletAddress_unfold.
    destruct (signer this); simpl; repeat split; auto; lia.
  - rewrite getNetworkInfo_unfold.
    destruct (provider this); simpl; repeat split; auto; lia.
  - destruct (environment_cases w) as [[Hno | (win & Hwin & Heth)]
                                      | (win & eth & Hwin & Heth)].
    + rewrite (proj1 (switchToCorrectNetwork_no_wallet K w this) Hno).
      simpl. repeat split; auto; lia.
    + rewrite (proj2 (switchToCorrectNetwork_no_wallet K w this)
                 win Hwin Heth).
      simpl. repeat split; auto; lia.
    + rewrite (switchToCorrectNetwork_unfold K w this win eth Hwin Heth).
      destruct (ethereum_request w (wallet_switchEthereumChain K)) as [u|e];
        simpl; [repeat split; auto; lia|].
      destruct (code_is e 4902); simpl; [|repeat split; auto; lia].
      repeat split; try lia. apply H2. discriminate.
  - rewrite getContractDebugInfo_unfold.
    destruct (provider this); simpl; [|repeat split; auto; lia].
    destruct (provider_getNetwork w); simpl;
      repeat split; auto; try lia.
    apply H2. discriminate.
Qed.

(** X20. On a service that was new and has since been used in any way,
    once [isConnected()] is true no query and no mutation stops at its
    guard any more: each of them reaches the contract, the signer or the
    provider, in whatever world it is called. *)
Theorem connected_calls_pass_their_guards (K : Constants)
    (calls : list (Call * World)) (w : World) (c : Call) :
  isConnected (session K calls counterService) = true ->
  c <> call_connect -> c <> call_switchToCorrectNetwork ->
  interactions_of K w c (session K calls counterService) <> [].
Proof.
  intros Hconn Hc1 Hc2.
  pose proof (session_keeps_coherent K calls counterService
                (new_service_coherent K)) as Hcoh.
  apply isConnected_true in Hconn.
  destruct Hcoh as (Hcs & Hsp & _).
  pose proof (Hcs Hconn) as Hs. pose proof (Hsp Hs) as Hp.
  destruct c; try contradiction; unfold interactions_of.
  - rewrite getCounter_unfold.
    destruct (contract (session K calls counterService));
      [discriminate|contradiction].
  - change (incrementCounter w) with (mutate w incrementCounter_method).
    rewrite mutate_unfold.
    destruct (contract (session K calls counterService)) as [c|];
      [|contradiction].
    destruct (contract_send w c _) as [tx|]; [|discriminate].
    destruct (tx_wait w tx); discriminate.
  - change (decrementCounter w) with (mutate w decrementCounter_method).
    rewrite mutate_unfold.
    destruct (contract (session K calls counterService)) as [c|];
      [|contradiction].
    destruct (contract_send w c _) as [tx|]; [|discriminate].
    destruct (tx_wait w tx); discriminate.
  - change (resetCounter w) with (mutate w resetCounter_method).
    rewrite mutate_unfold.
    destruct (contract (session K calls counterService)) as [c|];
      [|contradiction].
    destruct (contract_send w c _) as [tx|]; [|discriminate].
    destruct (tx_wait w tx); discriminate.
  - rewrite getOwner_unfold.
    destruct (contract (session K calls counterService));
      [discriminate|contradiction].
  - rewrite getWalletAddress_unfold.
    destruct (signer (session K calls counterService));
      [discriminate|contradiction].
  - rewrite getNetworkInfo_unfold.
    destruct (provider (session K calls counterService));
      [discriminate|contradiction].
  - rewrite getContractDebugInfo_unfold.
    destruct (provider (session K calls counterService));
      [|contradiction].
    destruct (provider_getNetwork w); discriminate.
Qed.

Lemma connected_calls_pass_their_guards_after_switch :
  isConnected
    (session constants
       [(call_connect, Sample.locked); (call_connect, Sample.deployed);
        (call_connect, Sample.switched_account)]
       counterService) = true /\
  interactions_of constants Sample.flaky call_getWalletAddress
    (session constants
       [(call_connect, Sample.locked); (call_connect, Sample.deployed);
        (call_connect, Sample.switched_account)]
       counterService) <> [].
Proof.
  split; [reflexivity|].
  apply (connected_calls_pass_their_guards constants
           [(call_connect, Sample.locked); (call_connect, Sample.deployed);
            (call_connect, Sample.switched_account)]
           Sample.flaky call_getWalletAddress eq_refl); discriminate.
Defined.
